(** * front-net-ctrl: the command dispatcher and its fallback policy

    A shallow embedding of [front-net-ctrl.py].  The script parses its
    command line, validates the fields its mode needs, and then issues a
    fixed sequence of [tc] / [ip] commands through [subprocess.run],
    folding what each one reports into one boolean and hence into the
    exit code.

    The external world (the kernel, [tc], [ip], the file system) is an
    oracle: given the commands attempted so far and the next command it
    says what [subprocess.run] does.  The script itself is written in a
    small monad that threads the trace of attempted commands and the
    printed lines, and that distinguishes a returned value, a raised
    exception and [SystemExit]. *)

From Stdlib Require Import String Ascii List ZArith Bool Lia.
From Stdlib Require Strings.Byte.
Import ListNotations.
Open Scope Z_scope.
Open Scope string_scope.

(** ** Python values and exceptions *)

Module Py.

(** The values the script handles: an option of the parsed command line
    is either [None] (the flag was not given) or a [str]. *)
Inductive value : Type :=
| PyNone
| PyStr (s : string).

(** [bool(v)]: [None] and the empty string are falsy. *)
Definition truthy (v : value) : bool :=
  match v with
  | PyNone => false
  | PyStr s => negb (s =? "")
  end.

(** [f'{v}']: a string is inserted as it is, [None] reads "None". *)
Definition format (v : value) : string :=
  match v with
  | PyNone => "None"
  | PyStr s => s
  end.

(** [all(l)] on a list of values. *)
Definition all (l : list value) : bool := forallb truthy l.

(** The exception classes [subprocess.run] can raise, with their place in
    the class hierarchy.  A program that cannot be started (not found, not
    executable) is reported as [FileNotFoundError] or [PermissionError],
    both subclasses of [OSError]; [TimeoutExpired] and [CalledProcessError]
    belong to the options [timeout=] and [check=True]; output that cannot
    be decoded as text gives [UnicodeDecodeError]. *)
Inductive exc_class : Type :=
| Exception
| OSError
| FileNotFoundError
| PermissionError
| ValueError
| UnicodeDecodeError
| TypeError
| SubprocessError
| CalledProcessError
| TimeoutExpired.

Definition exc_class_eqb (c d : exc_class) : bool :=
  match c, d with
  | Exception, Exception | OSError, OSError
  | FileNotFoundError, FileNotFoundError
  | PermissionError, PermissionError | ValueError, ValueError
  | UnicodeDecodeError, UnicodeDecodeError | TypeError, TypeError
  | SubprocessError, SubprocessError
  | CalledProcessError, CalledProcessError
  | TimeoutExpired, TimeoutExpired => true
  | _, _ => false
  end.

(** The direct base class; [Exception] is the root of this fragment. *)
Definition base (c : exc_class) : option exc_class :=
  match c with
  | Exception => None
  | OSError => Some Exception
  | FileNotFoundError => Some OSError
  | PermissionError => Some OSError
  | ValueError => Some Exception
  | UnicodeDecodeError => Some ValueError
  | TypeError => Some Exception
  | SubprocessError => Some Exception
  | CalledProcessError => Some SubprocessError
  | TimeoutExpired => Some SubprocessError
  end.

Fixpoint issubclass_fuel (fuel : nat) (c d : exc_class) : bool :=
  exc_class_eqb c d ||
  match fuel with
  | O => false
  | S fuel' =>
      match base c with
      | Some b => issubclass_fuel fuel' b d
      | None => false
      end
  end.

(** [issubclass(c, d)]; the hierarchy above is three levels deep. *)
Definition issubclass (c d : exc_class) : bool := issubclass_fuel 3 c d.
Arguments issubclass : simpl never.

(** An exception instance: its class and what [str(e)] gives. *)
Record exception : Type := mkExc { cls : exc_class; msg : string }.

(** [sep.join(l)]: raises [TypeError] on an item that is not a [str]. *)
Fixpoint strs (l : list value) : option (list string) :=
  match l with
  | [] => Some []
  | PyNone :: _ => None
  | PyStr s :: l' =>
      match strs l' with
      | Some r => Some (s :: r)
      | None => None
      end
  end.

End Py.

Import Py.
Coercion PyStr : string >-> value.

(** ** The external world and the execution monad *)

(** What a finished child process leaves behind; with [capture_output=True,
    text=True] both streams come back as text. *)
Record CompletedProcess : Type := mkCompleted {
  returncode : Z;
  stdout : string;
  stderr : string
}.

(** What one [subprocess.run] does: the child ran to completion, or the
    call raised. *)
Inductive launch : Type :=
| Completed (p : CompletedProcess)
| Failed (e : exception).

Definition argv : Type := list string.

(** The world answers each invocation knowing every command attempted
    before it, so the same command may fare differently the second time. *)
Definition world : Type := list argv -> argv -> launch.

Inductive output : Type :=
| to_stdout (line : string)
| to_stderr (line : string).

(** The observable state of a run: the commands handed to the operating
    system, in order, and the lines printed. *)
Record state : Type := mkState {
  trace : list argv;
  out : list output
}.

Definition init : state := {| trace := []; out := [] |}.

Inductive result (A : Type) : Type :=
| Ok (a : A)
| Raise (e : exception)
| Exit (code : Z).
Arguments Ok {A} a.
Arguments Raise {A} e.
Arguments Exit {A} code.

Definition M (A : Type) : Type := world -> state -> result A * state.

Definition ret {A} (a : A) : M A := fun _ st => (Ok a, st).

Definition bind {A B} (m : M A) (k : A -> M B) : M B :=
  fun w st =>
    match m w st with
    | (Ok a, st') => k a w st'
    | (Raise e, st') => (Raise e, st')
    | (Exit c, st') => (Exit c, st')
    end.

Notation "x <- m ;; k" := (bind m (fun x => k))
  (at level 61, m at next level, right associativity).
Notation "m ;; k" := (bind m (fun _ => k))
  (at level 61, right associativity).

Definition raise {A} (e : exception) : M A := fun _ st => (Raise e, st).

(** [try: body  except c as e: handler e].  [SystemExit] is not an
    [Exception] and passes through. *)
Definition try_except {A} (body : M A) (c : exc_class)
    (handler : exception -> M A) : M A :=
  fun w st =>
    match body w st with
    | (Raise e, st') =>
        if issubclass (cls e) c then handler e w st' else (Raise e, st')
    | r => r
    end.

Definition print (line : string) : M unit :=
  fun _ st => (Ok tt, {| trace := trace st; out := (out st ++ [to_stdout line])%list |}).

(** [print(line, file=sys.stderr)] *)
Definition eprint (line : string) : M unit :=
  fun _ st => (Ok tt, {| trace := trace st; out := (out st ++ [to_stderr line])%list |}).

(** [sys.exit(code)] *)
Definition sys_exit {A} (code : Z) : M A := fun _ st => (Exit code, st).

(** [parser.error(message)]: argparse prints the usage banner and the
    message on standard error and exits with status 2.  The banner depends
    on the program name only and is left out of the recorded line. *)
Definition parser_error {A} (message : string) : M A :=
  eprint ("error: " ++ message) ;; sys_exit 2.

(** [sep.join(cmd)] *)
Definition join (sep : string) (cmd : list value) : M string :=
  match strs cmd with
  | Some l => ret (String.concat sep l)
  | None => raise (mkExc TypeError "sequence item: expected str instance, NoneType found")
  end.

(** [subprocess.run(cmd, capture_output=True, text=True)].  An argument
    that is not a string is refused with [TypeError] before anything is
    started; otherwise the attempt is recorded and the world decides. *)
Definition subprocess_run (cmd : list value) : M CompletedProcess :=
  match strs cmd with
  | None =>
      raise (mkExc TypeError "expected str, bytes or os.PathLike object, not NoneType")
  | Some a =>
      fun w st =>
        let st' := {| trace := (trace st ++ [a])%list; out := out st |} in
        match w (trace st) a with
        | Completed p => (Ok p, st')
        | Failed e => (Raise e, st')
        end
  end.

(** [for x in xs: body], with the loop-carried variable threaded. *)
Fixpoint for_in {A S} (xs : list A) (body : A -> S -> M S) (s : S) : M S :=
  match xs with
  | [] => ret s
  | x :: xs' => s' <- body x s ;; for_in xs' body s'
  end.

(** ** The script *)

(** The parsed command line ([argparse.Namespace]). *)
Record Namespace : Type := mkArgs {
  mode : string;
  iface1 : value;
  bw1 : value;
  iface2 : value;
  bw2 : value;
  subflow_ip : value;
  subflow_iface : value
}.

Definition change_cmd (iface bandwidth : value) : list value :=
  [PyStr "tc"; PyStr "qdisc"; PyStr "change"; PyStr "dev"; iface;
   PyStr "root"; PyStr "tbf"; PyStr "rate";
   PyStr (format bandwidth ++ "mbit"); PyStr "burst"; PyStr "256mbit";
   PyStr "latency"; PyStr "600ms"].

Definition add_cmd (iface bandwidth : value) : list value :=
  [PyStr "tc"; PyStr "qdisc"; PyStr "add"; PyStr "dev"; iface;
   PyStr "root"; PyStr "tbf"; PyStr "rate";
   PyStr (format bandwidth ++ "mbit"); PyStr "burst"; PyStr "256mbit";
   PyStr "latency"; PyStr "600ms"].

(** The first [try] block either returns from the function ([Some]) or
    falls through to the second ([None]). *)
Definition configure_interface (iface bandwidth : value) : M bool :=
  returned <-
    try_except
      (result <- subprocess_run (change_cmd iface bandwidth) ;;
       if negb (truthy (PyStr (stderr result))) then
         print ("Successfully modified bandwidth for " ++ format iface) ;;
         ret (Some true)
       else ret None)
      SubprocessError
      (fun _ => ret None) ;;
  match returned with
  | Some b => ret b
  | None =>
      try_except
        (result <- subprocess_run (add_cmd iface bandwidth) ;;
         if negb (truthy (PyStr (stderr result))) then
           print ("Successfully added bandwidth limit for " ++ format iface) ;;
           ret true
         else
           eprint ("Error configuring " ++ format iface ++ ": " ++ stderr result) ;;
           ret false)
        SubprocessError
        (fun e =>
           eprint ("Error executing command for " ++ format iface ++ ": " ++ msg e) ;;
           ret false)
  end.

Definition handle_bandwidth_mode (args : Namespace) : M bool :=
  let success := true in
  r1 <- configure_interface (iface1 args) (bw1 args) ;;
  let success := if negb r1 then false else success in
  r2 <- configure_interface (iface2 args) (bw2 args) ;;
  let success := if negb r2 then false else success in
  ret success.

Definition client_commands : list (list value) :=
  [ [PyStr "ip"; PyStr "mptcp"; PyStr "limits"; PyStr "set"; PyStr "subflow"; PyStr "2"];
    [PyStr "ip"; PyStr "mptcp"; PyStr "limits"; PyStr "set";
     PyStr "add_addr_accepted"; PyStr "2"] ].

Definition handle_mptcp_client_mode (args : Namespace) : M bool :=
  print "Configuring MPTCP client mode..." ;;
  let commands := client_commands in
  let success := true in
  for_in commands
    (fun cmd success =>
       try_except
         (result <- subprocess_run cmd ;;
          if truthy (PyStr (stderr result)) then
            j <- join " " cmd ;;
            eprint ("Error executing " ++ j ++ ": " ++ stderr result) ;;
            ret false
          else
            j <- join " " cmd ;;
            print ("Successfully executed: " ++ j) ;;
            ret success)
         SubprocessError
         (fun e =>
            j <- join " " cmd ;;
            eprint ("Command failed " ++ j ++ ": " ++ msg e) ;;
            ret false))
    success.

Definition subflow_cmd : list value :=
  [PyStr "ip"; PyStr "mptcp"; PyStr "limits"; PyStr "set"; PyStr "subflow"; PyStr "2"].

Definition endpoint_cmd (args : Namespace) : list value :=
  [PyStr "ip"; PyStr "mptcp"; PyStr "endpoint"; PyStr "add"; subflow_ip args;
   PyStr "dev"; subflow_iface args; PyStr "signal"].

Definition handle_mptcp_server_mode (args : Namespace) : M bool :=
  print "Configuring MPTCP server mode..." ;;
  let success := true in
  for_in [subflow_cmd; endpoint_cmd args]
    (fun cmd success =>
       try_except
         (result <- subprocess_run cmd ;;
          if truthy (PyStr (stderr result)) then
            j <- join " " cmd ;;
            eprint ("Error executing " ++ j ++ ": " ++ stderr result) ;;
            ret false
          else
            j <- join " " cmd ;;
            print ("Successfully executed: " ++ j) ;;
            ret success)
         SubprocessError
         (fun e =>
            j <- join " " cmd ;;
            eprint ("Command failed " ++ j ++ ": " ++ msg e) ;;
            ret false))
    success.

(** [main] from the point where [parser.parse_args()] has returned;
    argparse's [choices] has already restricted [mode] to the three modes,
    the comparisons below are the script's own. *)
Definition main (args : Namespace) : M unit :=
  (if mode args =? "bandwidth" then
     if negb (all [iface1 args; bw1 args; iface2 args; bw2 args]) then
       parser_error
         "bandwidth mode requires --iface1, --bw1, --iface2, and --bw2 arguments"
     else ret tt
   else if mode args =? "mptcp-server" then
     if negb (truthy (subflow_ip args)) || negb (truthy (subflow_iface args)) then
       parser_error
         "mptcp-server mode requires --subflow-ip and --subflow-iface arguments"
     else ret tt
   else ret tt) ;;
  let success := false in
  success <-
    (if mode args =? "bandwidth" then handle_bandwidth_mode args
     else if mode args =? "mptcp-client" then handle_mptcp_client_mode args
     else if mode args =? "mptcp-server" then handle_mptcp_server_mode args
     else ret success) ;;
  sys_exit (if success then 0 else 1).

(** The script run as a program: [SystemExit] gives the exit status, an
    exception that reaches the top level is printed as a traceback and the
    interpreter exits with status 1. *)
Definition run_script (args : Namespace) (w : world) : Z * state :=
  match main args w init with
  | (Exit code, st) => (code, st)
  | (Raise e, st) =>
      (1, {| trace := trace st;
             out := (out st ++ [to_stderr ("Traceback (most recent call last): " ++ msg e)])%list |})
  | (Ok _, st) => (0, st)
  end.

(** ** Text mode: from the bytes of the child to the captured text *)

(** What the operating system hands back for a child that ran: its exit
    status and the bytes it wrote on its two streams. *)
Record RawProcess : Type := mkRaw {
  raw_returncode : Z;
  raw_stdout : list Byte.byte;
  raw_stderr : list Byte.byte
}.

(** The child ran, or could not be started. *)
Inductive raw_launch : Type :=
| Ran (p : RawProcess)
| NotStarted (e : exception).

Definition raw_world : Type := list argv -> argv -> raw_launch.

(** [bytes.decode(encoding, 'strict')] for the encoding of the locale:
    [None] when the bytes are not valid in it. *)
Definition codec : Type := list Byte.byte -> option string.

(** [data.replace("\r\n", "\n")] *)
Fixpoint replace_crlf (s : string) : string :=
  match s with
  | String c1 (String c2 rest as tail) =>
      if (Ascii.eqb c1 "013" && Ascii.eqb c2 "010")%bool
      then String "010" (replace_crlf rest)
      else String c1 (replace_crlf tail)
  | String c EmptyString => String c EmptyString
  | EmptyString => EmptyString
  end.

(** [data.replace("\r", "\n")] *)
Fixpoint replace_cr (s : string) : string :=
  match s with
  | String c rest => String (if Ascii.eqb c "013" then "010" else c) (replace_cr rest)
  | EmptyString => EmptyString
  end.

(** [Popen._translate_newlines(data, encoding, errors)]: decode, then
    normalise the line ends. *)
Definition translate_newlines (decode : codec) (data : list Byte.byte)
  : option string :=
  match decode data with
  | Some text => Some (replace_cr (replace_crlf text))
  | None => None
  end.

(** [subprocess.run(..., capture_output=True, text=True)] on top of the
    operating system: a child that could not be started raises; the output
    of one that ran is decoded, standard output first, and bytes that do not
    decode raise [UnicodeDecodeError] in place of a result. *)
Definition communicate (decode : codec) (r : raw_launch) : launch :=
  match r with
  | NotStarted e => Failed e
  | Ran p =>
      match translate_newlines decode (raw_stdout p) with
      | None => Failed (mkExc UnicodeDecodeError "codec can't decode byte: invalid start byte")
      | Some o =>
          match translate_newlines decode (raw_stderr p) with
          | None => Failed (mkExc UnicodeDecodeError "codec can't decode byte: invalid start byte")
          | Some e =>
              Completed {| returncode := raw_returncode p; stdout := o; stderr := e |}
          end
      end
  end.

Definition subprocess_world (decode : codec) (rw : raw_world) : world :=
  fun h a => communicate decode (rw h a).

(** The [ascii] codec: every byte below 128 is its character, any other
    byte is an error.  The byte 255 on its own is an error in UTF-8 as
    well. *)
Fixpoint ascii_strict (data : list Byte.byte) : option string :=
  match data with
  | [] => Some EmptyString
  | b :: rest =>
      if (Byte.to_N b <? 128)%N then
        match ascii_strict rest with
        | Some t => Some (String (ascii_of_byte b) t)
        | None => None
        end
      else None
  end.

(** ** Vocabulary of the properties *)

(** A field is missing when the flag was not given or was given empty. *)
Definition absent_or_empty (v : value) : Prop := v = PyNone \/ v = PyStr "".

(** The fields a mode requires, as the usage text of the script lists them. *)
Definition missing_required (args : Namespace) : Prop :=
  (mode args = "bandwidth" /\
   (absent_or_empty (iface1 args) \/ absent_or_empty (bw1 args) \/
    absent_or_empty (iface2 args) \/ absent_or_empty (bw2 args))) \/
  (mode args = "mptcp-server" /\
   (absent_or_empty (subflow_ip args) \/ absent_or_empty (subflow_iface args))).

(** The test [main] makes before it dispatches. *)
Definition rejects (args : Namespace) : bool :=
  if mode args =? "bandwidth" then
    negb (all [iface1 args; bw1 args; iface2 args; bw2 args])
  else if mode args =? "mptcp-server" then
    negb (truthy (subflow_ip args)) || negb (truthy (subflow_iface args))
  else false.

(** The handler [main] dispatches to. *)
Definition dispatch (args : Namespace) : M bool :=
  if mode args =? "bandwidth" then handle_bandwidth_mode args
  else if mode args =? "mptcp-client" then handle_mptcp_client_mode args
  else if mode args =? "mptcp-server" then handle_mptcp_server_mode args
  else ret false.

(** Whether a computation returned [True]. *)
Definition succeeded (r : result bool * state) : bool :=
  match fst r with
  | Ok true => true
  | _ => false
  end.

(** The body shared, word for word, by the loops of the two MPTCP
    handlers. *)
Definition run_and_check (cmd : list value) (success : bool) : M bool :=
  try_except
    (result <- subprocess_run cmd ;;
     if truthy (PyStr (stderr result)) then
       j <- join " " cmd ;;
       eprint ("Error executing " ++ j ++ ": " ++ stderr result) ;;
       ret false
     else
       j <- join " " cmd ;;
       print ("Successfully executed: " ++ j) ;;
       ret success)
    SubprocessError
    (fun e =>
       j <- join " " cmd ;;
       eprint ("Command failed " ++ j ++ ": " ++ msg e) ;;
       ret false).

(** What an attempt leaves in the state. *)
Definition attempted (a : argv) (st : state) : state :=
  {| trace := (trace st ++ [a])%list; out := out st |}.

Definition printed (o : output) (st : state) : state :=
  {| trace := trace st; out := (out st ++ [o])%list |}.

(** The command line of [tc] as the specification writes it. *)
Definition tc_argv (op iface bw : string) : argv :=
  ["tc"; "qdisc"; op; "dev"; iface; "root"; "tbf"; "rate"; bw ++ "mbit";
   "burst"; "256mbit"; "latency"; "600ms"].

(** The fallback step of [configure_interface], started in [st]. *)
Definition fallback_outcome (iface bw : string) (w : world) (st : state)
  : result bool * state :=
  let a := tc_argv "add" iface bw in
  match w (trace st) a with
  | Completed p =>
      if stderr p =? "" then
        (Ok true,
         printed (to_stdout ("Successfully added bandwidth limit for " ++ iface))
           (attempted a st))
      else
        (Ok false,
         printed (to_stderr ("Error configuring " ++ iface ++ ": " ++ stderr p))
           (attempted a st))
  | Failed e =>
      if issubclass (cls e) SubprocessError then
        (Ok false,
         printed (to_stderr ("Error executing command for " ++ iface ++ ": " ++ msg e))
           (attempted a st))
      else (Raise e, attempted a st)
  end.




(** A computation that never raises [SystemExit]: it returns or raises an
    ordinary exception. *)
Definition no_exit {A} (m : M A) : Prop :=
  forall w st, match fst (m w st) with Exit _ => False | _ => True end.

(** *** Concrete runs *)

(** The command lines of the usage text. *)
Definition bandwidth_args : Namespace :=
  mkArgs "bandwidth" "eth0" "100" "eth1" "50" PyNone PyNone.

Definition client_args : Namespace :=
  mkArgs "mptcp-client" PyNone PyNone PyNone PyNone PyNone PyNone.

Definition server_args : Namespace :=
  mkArgs "mptcp-server" PyNone PyNone PyNone PyNone "192.168.1.100" "eth0".

(** Every command runs and prints nothing on its error stream. *)
Definition quiet : world := fun _ _ => Completed (mkCompleted 0 "" "").


(** [tc] and [ip] are not installed: [subprocess.run] raises
    [FileNotFoundError], a subclass of [OSError]. *)
Definition tool_missing : world :=
  fun _ _ => Failed (mkExc FileNotFoundError "[Errno 2] No such file or directory").

(** No queue discipline exists yet: every [change] complains, every other
    command is silent. *)
Definition no_qdisc_yet : world :=
  fun _ a =>
    if existsb (String.eqb "change") a then
      Completed (mkCompleted 2 "" "Error: Qdisc not found. To create specify NLM_F_CREATE flag.")
    else Completed (mkCompleted 0 "" "").

(** The commands of the MPTCP handlers as lists of strings. *)
Definition subflow_argv : argv := ["ip"; "mptcp"; "limits"; "set"; "subflow"; "2"].

Definition add_addr_argv : argv :=
  ["ip"; "mptcp"; "limits"; "set"; "add_addr_accepted"; "2"].

Definition endpoint_argv (ip dev : string) : argv :=
  ["ip"; "mptcp"; "endpoint"; "add"; ip; "dev"; dev; "signal"].

(** An invocation has failed when its error stream is not empty or the
    process could not be launched. *)
Definition invocation_failed (l : launch) : bool :=
  match l with
  | Completed p => negb (stderr p =? "")
  | Failed _ => true
  end.




(** *** Further vocabulary: what an invocation lets the script go on with *)

(** The script goes on after an invocation when the child completed or the
    failure to start it was raised as a [SubprocessError]. *)
Definition caught (l : launch) : bool :=
  match l with
  | Completed _ => true
  | Failed e => issubclass (cls e) SubprocessError
  end.

(** Whether a computation returned a value. *)
Definition returns {A} (r : result A * state) : bool :=
  match fst r with
  | Ok _ => true
  | _ => false
  end.

Definition on_stderr (o : output) : bool :=
  match o with
  | to_stderr _ => true
  | to_stdout _ => false
  end.

(** Nothing has been printed on standard error. *)
Definition clean (st : state) : bool := forallb (fun o => negb (on_stderr o)) (out st).

(** The three ways an invocation can end as far as control flow goes. *)
Inductive verdict : Type :=
| Silent
| Handled
| Escaped.

Definition verdict_of (l : launch) : verdict :=
  match l with
  | Completed p => if stderr p =? "" then Silent else Handled
  | Failed e => if issubclass (cls e) SubprocessError then Handled else Escaped
  end.

Definition same_verdicts (w1 w2 : world) : Prop :=
  forall h a, verdict_of (w1 h a) = verdict_of (w2 h a).

(** What a handler hands to [main]: its boolean, or nothing when it raised. *)
Definition summary (r : result bool) : option bool :=
  match r with
  | Ok b => Some b
  | _ => None
  end.

(** Two runs are twins when they attempted the same commands and hand the
    same boolean, or none, to the caller. *)
Definition twin (r1 r2 : result bool * state) : Prop :=
  trace (snd r1) = trace (snd r2) /\ summary (fst r1) = summary (fst r2).

(** The two shapes a command of the script has: [tc qdisc] with thirteen
    arguments in all, or [ip mptcp] with six or eight. *)
Definition script_command (a : argv) : Prop :=
  (exists rest, a = "tc" :: "qdisc" :: rest /\ length a = 13%nat) \/
  (exists rest, a = "ip" :: "mptcp" :: rest /\ (length a = 6%nat \/ length a = 8%nat)).

(** Every launch is refused with a [SubprocessError]. *)
Definition timed_out : world :=
  fun _ _ => Failed (mkExc TimeoutExpired "Command timed out after 5 seconds").

(** Every command complains on its error stream. *)
Definition complaining : world :=
  fun _ _ => Completed (mkCompleted 2 "" "RTNETLINK answers: Operation not permitted").

(** *** Two runs compared on what the child wrote *)

(** Whether bytes decode in the codec of the locale. *)
Definition decodes (decode : codec) (data : list Byte.byte) : bool :=
  match decode data with
  | Some _ => true
  | None => false
  end.

(** The comparison in the words of the specification: two invocations
    yield the same error output and the same launch-success flag. *)
Definition same_stderr_and_flag (r1 r2 : raw_launch) : Prop :=
  match r1, r2 with
  | Ran p1, Ran p2 => raw_stderr p1 = raw_stderr p2
  | NotStarted _, NotStarted _ => True
  | _, _ => False
  end.

(** The comparison the script supports: the same error output and a
    standard output that decodes in both or in neither; or a failure to
    start that is a [SubprocessError] in both or in neither. *)
Definition raw_alike (decode : codec) (r1 r2 : raw_launch) : Prop :=
  match r1, r2 with
  | Ran p1, Ran p2 =>
      raw_stderr p1 = raw_stderr p2 /\
      decodes decode (raw_stdout p1) = decodes decode (raw_stdout p2)
  | NotStarted e1, NotStarted e2 =>
      issubclass (cls e1) SubprocessError = issubclass (cls e2) SubprocessError
  | _, _ => False
  end.

(** Every child runs in silence. *)
Definition tidy : raw_world := fun _ _ => Ran (mkRaw 0 [] []).

(** Every child runs in silence on its error stream and writes the single
    byte 255 on its standard output. *)
Definition garbled : raw_world := fun _ _ => Ran (mkRaw 0 [Byte.xff] []).

(** Every child writes text on its standard output and exits with 3. *)
Definition wordy : raw_world :=
  fun _ _ => Ran (mkRaw 3 (list_byte_of_string "qdisc tbf 8001: root") []).

(** The first launch fails with the [SubprocessError] that [subprocess]
    raises when the child reports its failure in a form it cannot read;
    every later child runs in silence. *)
Definition first_launch_unreadable : raw_world :=
  fun h _ =>
    match h with
    | [] => NotStarted (mkExc SubprocessError "Bad exception data from child")
    | _ => Ran (mkRaw 0 [] [])
    end.

(** The first launch fails because the program is not found; every later
    child runs in silence. *)
Definition first_launch_not_found : raw_world :=
  fun h _ =>
    match h with
    | [] => NotStarted (mkExc FileNotFoundError "[Errno 2] No such file or directory")
    | _ => Ran (mkRaw 0 [] [])
    end.

(** The program is there but may not be executed. *)
Definition not_executable : raw_world :=
  fun _ _ => NotStarted (mkExc PermissionError "[Errno 13] Permission denied").

(** The program is not there. *)
Definition not_found : raw_world :=
  fun _ _ => NotStarted (mkExc FileNotFoundError "[Errno 2] No such file or directory").

(** ** Auxiliary facts *)

Lemma truthy_false_iff (v : value) : truthy v = false <-> absent_or_empty v.
Proof.
  unfold absent_or_empty; destruct v as [|s]; cbn.
  - split; auto.
  - rewrite negb_false_iff, String.eqb_eq. split.
    + intros ->; now right.
    + intros [H|H]; [discriminate | now inversion H].
Qed.

Lemma truthy_true_iff (s : string) : truthy (PyStr s) = true <-> s <> "".
Proof.
  cbn. rewrite negb_true_iff. apply String.eqb_neq.
Qed.

Lemma rejects_iff (args : Namespace) :
  rejects args = true <-> missing_required args.
Proof.
  unfold rejects, missing_required, all.
  destruct (mode args =? "bandwidth") eqn:Eb.
  - apply String.eqb_eq in Eb. rewrite Eb. cbn [forallb].
    rewrite negb_true_iff, andb_true_r, !andb_false_iff, !truthy_false_iff.
    split.
    + intros H; left; split; [reflexivity | tauto].
    + intros [[_ H] | [H _]]; [tauto | discriminate].
  - apply String.eqb_neq in Eb.
    destruct (mode args =? "mptcp-server") eqn:Es.
    + apply String.eqb_eq in Es.
      rewrite orb_true_iff, !negb_true_iff, !truthy_false_iff.
      split; [intros H; right; now split | ].
      intros [[H _] | [_ H]]; [contradiction | exact H].
    + apply String.eqb_neq in Es.
      split; [discriminate | intros [[H _] | [H _]]; contradiction].
Qed.

(** [main] is its validation followed by the dispatch and the exit. *)
Lemma main_rejected (args : Namespace) (w : world) (st : state) :
  rejects args = true ->
  exists line,
    main args w st =
    (Exit 2, {| trace := trace st; out := (out st ++ [to_stderr line])%list |}).
Proof.
  unfold rejects, main, bind, parser_error, bind, eprint, sys_exit.
  destruct (mode args =? "bandwidth").
  - intros ->. eexists; reflexivity.
  - destruct (mode args =? "mptcp-server"); [ | discriminate ].
    intros ->. eexists; reflexivity.
Qed.

Lemma main_accepted (args : Namespace) (w : world) (st : state) :
  rejects args = false ->
  main args w st =
  match dispatch args w st with
  | (Ok success, st') => (Exit (if success then 0 else 1), st')
  | (Raise e, st') => (Raise e, st')
  | (Exit c, st') => (Exit c, st')
  end.
Proof.
  unfold rejects, main, dispatch.
  destruct (mode args =? "bandwidth").
  - intros ->. reflexivity.
  - destruct (mode args =? "mptcp-server").
    + intros ->. reflexivity.
    + intros _. reflexivity.
Qed.

(** *** One checked invocation of the MPTCP loops *)

Lemma client_unfold (args : Namespace) :
  handle_mptcp_client_mode args =
  (print "Configuring MPTCP client mode..." ;;
   for_in client_commands run_and_check true).
Proof. reflexivity. Qed.

Lemma server_unfold (args : Namespace) :
  handle_mptcp_server_mode args =
  (print "Configuring MPTCP server mode..." ;;
   for_in [subflow_cmd; endpoint_cmd args] run_and_check true).
Proof. reflexivity. Qed.

Lemma strs_map_PyStr (a : argv) : strs (map PyStr a) = Some a.
Proof.
  induction a as [|s a IH]; cbn; [reflexivity | now rewrite IH].
Qed.

Lemma run_and_check_spec (a : argv) (success : bool) (w : world) (st : state) :
  run_and_check (map PyStr a) success w st =
  match w (trace st) a with
  | Completed p =>
      if stderr p =? "" then
        (Ok success,
         printed (to_stdout ("Successfully executed: " ++ String.concat " " a))
           (attempted a st))
      else
        (Ok false,
         printed (to_stderr ("Error executing " ++ String.concat " " a ++ ": " ++ stderr p))
           (attempted a st))
  | Failed e =>
      if issubclass (cls e) SubprocessError then
        (Ok false,
         printed (to_stderr ("Command failed " ++ String.concat " " a ++ ": " ++ msg e))
           (attempted a st))
      else (Raise e, attempted a st)
  end.
Proof.
  unfold run_and_check, try_except, bind, subprocess_run, join.
  rewrite strs_map_PyStr.
  destruct (w (trace st) a) as [p|e].
  - cbn. destruct (stderr p =? ""); reflexivity.
  - destruct (issubclass (cls e) SubprocessError); reflexivity.
Qed.

(** *** One interface of bandwidth mode *)

Lemma configure_interface_spec (iface : string) (bandwidth : value)
    (w : world) (st : state) :
  configure_interface (PyStr iface) bandwidth w st =
  let c := tc_argv "change" iface (format bandwidth) in
  match w (trace st) c with
  | Completed p =>
      if stderr p =? "" then
        (Ok true,
         printed (to_stdout ("Successfully modified bandwidth for " ++ iface))
           (attempted c st))
      else fallback_outcome iface (format bandwidth) w (attempted c st)
  | Failed e =>
      if issubclass (cls e) SubprocessError then
        fallback_outcome iface (format bandwidth) w (attempted c st)
      else (Raise e, attempted c st)
  end.
Proof.
  unfold configure_interface, fallback_outcome, try_except, bind, subprocess_run.
  cbn [change_cmd add_cmd strs format].
  change (["tc"; "qdisc"; "change"; "dev"; iface; "root"; "tbf"; "rate";
           format bandwidth ++ "mbit"; "burst"; "256mbit"; "latency"; "600ms"])
    with (tc_argv "change" iface (format bandwidth)).
  change (["tc"; "qdisc"; "add"; "dev"; iface; "root"; "tbf"; "rate";
           format bandwidth ++ "mbit"; "burst"; "256mbit"; "latency"; "600ms"])
    with (tc_argv "add" iface (format bandwidth)).
  cbv zeta.
  destruct (w (trace st) (tc_argv "change" iface (format bandwidth))) as [p|e].
  - cbn [truthy stderr]. rewrite negb_involutive.
    destruct (stderr p =? ""); [reflexivity | ].
    cbv beta iota delta [ret trace attempted].
    destruct (w _ (tc_argv "add" iface (format bandwidth))) as [q|e].
    + cbv beta iota. cbn [truthy]. rewrite negb_involutive.
      destruct (stderr q =? ""); reflexivity.
    + cbv beta iota.
      destruct (issubclass (cls e) SubprocessError); reflexivity.
  - cbv beta iota.
    destruct (issubclass (cls e) SubprocessError); [ | reflexivity ].
    cbv beta iota delta [ret trace attempted].
    destruct (w _ (tc_argv "add" iface (format bandwidth))) as [q|e'].
    + cbv beta iota. cbn [truthy]. rewrite negb_involutive.
      destruct (stderr q =? ""); reflexivity.
    + cbv beta iota.
      destruct (issubclass (cls e') SubprocessError); reflexivity.
Qed.

(** *** What the script can see of an invocation *)

Section Blind.

Context {A B : Type}.








End Blind.













(** *** Only [main] exits *)

Section NoExit.

Context {A B : Type}.

Lemma no_exit_ret (a : A) : no_exit (ret a).
Proof. now intros w st. Qed.

Lemma no_exit_raise (e : exception) : no_exit (@raise A e).
Proof. now intros w st. Qed.

Lemma no_exit_bind (m : M A) (k : A -> M B) :
  no_exit m -> (forall a, no_exit (k a)) -> no_exit (bind m k).
Proof.
  intros Hm Hk w st. unfold bind.
  specialize (Hm w st).
  destruct (m w st) as [[a|e|c] st']; cbn in *; auto.
  apply Hk.
Qed.

Lemma no_exit_try_except (body : M A) (c : exc_class) (h : exception -> M A) :
  no_exit body -> (forall e, no_exit (h e)) -> no_exit (try_except body c h).
Proof.
  intros Hb Hh w st. unfold try_except.
  specialize (Hb w st).
  destruct (body w st) as [[a|e|x] st']; cbn [fst] in *; auto.
  destruct (issubclass (cls e) c); [apply Hh | exact I].
Qed.

Lemma no_exit_if (b : bool) (m1 m2 : M A) :
  no_exit m1 -> no_exit m2 -> no_exit (if b then m1 else m2).
Proof. now destruct b. Qed.

End NoExit.

Lemma no_exit_print (line : string) : no_exit (print line).
Proof. now intros w st. Qed.

Lemma no_exit_eprint (line : string) : no_exit (eprint line).
Proof. now intros w st. Qed.

Lemma no_exit_join (sep : string) (cmd : list value) : no_exit (join sep cmd).
Proof. unfold join. destruct (strs cmd); [apply no_exit_ret | apply no_exit_raise]. Qed.

Lemma no_exit_subprocess_run (cmd : list value) : no_exit (subprocess_run cmd).
Proof.
  intros w st. unfold subprocess_run.
  destruct (strs cmd) as [a|]; [ | exact I ].
  now destruct (w (trace st) a).
Qed.

Lemma no_exit_for_in {X S} (xs : list X) (body : X -> S -> M S) (s : S) :
  (forall x s, no_exit (body x s)) -> no_exit (for_in xs body s).
Proof.
  intros Hb. revert s.
  induction xs as [|x xs IH]; intros s; cbn [for_in].
  - apply no_exit_ret.
  - apply no_exit_bind; [apply Hb | exact IH].
Qed.

Ltac no_exit_step :=
  first
    [ apply no_exit_ret | apply no_exit_raise
    | apply no_exit_print | apply no_exit_eprint | apply no_exit_join
    | apply no_exit_subprocess_run
    | apply no_exit_bind; [ | intros ? ]
    | apply no_exit_try_except; [ | intros ? ]
    | apply no_exit_if
    | apply no_exit_for_in; intros ? ? ].

Ltac no_exit_tac := repeat no_exit_step.

Lemma no_exit_configure_interface (iface bandwidth : value) :
  no_exit (configure_interface iface bandwidth).
Proof.
  unfold configure_interface. no_exit_tac.
  match goal with |- no_exit (match ?o with _ => _ end) => destruct o end;
    no_exit_tac.
Qed.

Lemma no_exit_handle_bandwidth_mode (args : Namespace) :
  no_exit (handle_bandwidth_mode args).
Proof.
  unfold handle_bandwidth_mode. cbv zeta.
  apply no_exit_bind; [apply no_exit_configure_interface | intros r1].
  apply no_exit_bind; [apply no_exit_configure_interface | intros r2].
  apply no_exit_ret.
Qed.

Lemma no_exit_handle_mptcp_client_mode (args : Namespace) :
  no_exit (handle_mptcp_client_mode args).
Proof. unfold handle_mptcp_client_mode. cbv zeta. no_exit_tac. Qed.

Lemma no_exit_handle_mptcp_server_mode (args : Namespace) :
  no_exit (handle_mptcp_server_mode args).
Proof. unfold handle_mptcp_server_mode. cbv zeta. no_exit_tac. Qed.

Lemma no_exit_dispatch (args : Namespace) : no_exit (dispatch args).
Proof.
  unfold dispatch. repeat apply no_exit_if.
  - apply no_exit_handle_bandwidth_mode.
  - apply no_exit_handle_mptcp_client_mode.
  - apply no_exit_handle_mptcp_server_mode.
  - apply no_exit_ret.
Qed.

(** The exit status of a run that passed validation. *)
Lemma run_script_accepted (args : Namespace) (w : world) :
  rejects args = false ->
  fst (run_script args w) = if succeeded (dispatch args w init) then 0 else 1.
Proof.
  intros R. unfold run_script, succeeded.
  rewrite (main_accepted args w init R).
  pose proof (no_exit_dispatch args w init) as N.
  destruct (dispatch args w init) as [[[|]|e|c] st']; cbn in *;
    [reflexivity | reflexivity | reflexivity | contradiction].
Qed.

Lemma run_script_rejected (args : Namespace) (w : world) :
  rejects args = true ->
  exists line,
    run_script args w = (2, {| trace := []; out := [to_stderr line] |}).
Proof.
  intros R. destruct (main_rejected args w init R) as [line H].
  exists line. unfold run_script. now rewrite H.
Qed.

(** *** Bandwidth mode, interface by interface *)

Lemma handle_bandwidth_mode_spec (args : Namespace) (w : world) (st : state) :
  handle_bandwidth_mode args w st =
  match configure_interface (iface1 args) (bw1 args) w st with
  | (Ok r1, st1) =>
      match configure_interface (iface2 args) (bw2 args) w st1 with
      | (Ok r2, st2) => (Ok (r1 && r2), st2)
      | (Raise e, st2) => (Raise e, st2)
      | (Exit c, st2) => (Exit c, st2)
      end
  | (Raise e, st1) => (Raise e, st1)
  | (Exit c, st1) => (Exit c, st1)
  end.
Proof.
  unfold handle_bandwidth_mode, bind.
  destruct (configure_interface (iface1 args) (bw1 args) w st) as [[r1|e|c] st1];
    try reflexivity.
  destruct (configure_interface (iface2 args) (bw2 args) w st1) as [[r2|e|c] st2];
    try reflexivity.
  now destruct r1, r2.
Qed.

(** [configure_interface] attempts the change and at most the add, and
    prints without touching the trace otherwise. *)
Lemma configure_interface_trace (iface : string) (bandwidth : value)
    (w : world) (st : state) :
  exists fell_back : bool,
    trace (snd (configure_interface (PyStr iface) bandwidth w st)) =
    (trace st ++
     tc_argv "change" iface (format bandwidth) ::
     (if fell_back then [tc_argv "add" iface (format bandwidth)] else []))%list.
Proof.
  rewrite configure_interface_spec. cbv zeta. unfold fallback_outcome.
  set (c := tc_argv "change" iface (format bandwidth)).
  set (a := tc_argv "add" iface (format bandwidth)).
  assert (F : forall x : result bool * state,
             trace (snd x) = ((trace st ++ [c]) ++ [a])%list ->
             trace (snd x) = (trace st ++ c :: [a])%list).
  { intros x ->. now rewrite <- app_assoc. }
  destruct (w (trace st) c) as [p|e].
  - destruct (stderr p =? "").
    + now exists false.
    + exists true. apply F. cbn [trace attempted].
      destruct (w _ a) as [q|e]; [destruct (stderr q =? "") | destruct (issubclass _ _)];
        reflexivity.
  - destruct (issubclass (cls e) SubprocessError).
    + exists true. apply F. cbn [trace attempted].
      destruct (w _ a) as [q|e']; [destruct (stderr q =? "") | destruct (issubclass _ _)];
        reflexivity.
    + now exists false.
Qed.

(** *** The MPTCP handlers, command by command *)

(** A loop over two commands is two checked invocations in a row. *)
Lemma for_in_two (c1 c2 : list value) (w : world) (st : state) :
  for_in [c1; c2] run_and_check true w st =
  match run_and_check c1 true w st with
  | (Ok s1, st1) => run_and_check c2 s1 w st1
  | other => other
  end.
Proof.
  cbn [for_in]. unfold bind, ret.
  destruct (run_and_check c1 true w st) as [[s1|e|c] st1]; try reflexivity.
  destruct (run_and_check c2 s1 w st1) as [[s2|e|c] st2]; reflexivity.
Qed.

Lemma client_mode_spec (args : Namespace) (w : world) (st : state) :
  handle_mptcp_client_mode args w st =
  let st0 := printed (to_stdout "Configuring MPTCP client mode...") st in
  match run_and_check (map PyStr subflow_argv) true w st0 with
  | (Ok s1, st1) => run_and_check (map PyStr add_addr_argv) s1 w st1
  | other => other
  end.
Proof.
  rewrite client_unfold. unfold bind at 1. cbn [print].
  unfold client_commands. now rewrite for_in_two.
Qed.

Lemma server_mode_spec (args : Namespace) (ip dev : string) (w : world) (st : state) :
  subflow_ip args = PyStr ip -> subflow_iface args = PyStr dev ->
  handle_mptcp_server_mode args w st =
  let st0 := printed (to_stdout "Configuring MPTCP server mode...") st in
  match run_and_check (map PyStr subflow_argv) true w st0 with
  | (Ok s1, st1) => run_and_check (map PyStr (endpoint_argv ip dev)) s1 w st1
  | other => other
  end.
Proof.
  intros Hip Hdev. rewrite server_unfold. unfold bind at 1. cbn [print].
  unfold endpoint_cmd. rewrite Hip, Hdev. now rewrite for_in_two.
Qed.

(** *** The error-detection policy in the words of the specification *)




(** *** Launch failures the handlers catch, and those they do not *)



(** A launch failure raised outside [SubprocessError] leaves
    [configure_interface] at once, whichever step it hits. *)
Lemma configure_interface_uncaught (iface : string) (bandwidth : value)
    (w : world) (st : state) (e : exception) :
  w (trace st) (tc_argv "change" iface (format bandwidth)) = Failed e ->
  issubclass (cls e) SubprocessError = false ->
  configure_interface iface bandwidth w st =
  (Raise e, attempted (tc_argv "change" iface (format bandwidth)) st).
Proof.
  intros E N. rewrite configure_interface_spec. cbv zeta. now rewrite E, N.
Qed.








(** ** The properties of the specification *)

(** C1.  [tc] cannot be started and [subprocess.run] raises
    [FileNotFoundError] for the change command.  The [except] clause of
    [configure_interface] names [SubprocessError], which
    [FileNotFoundError] is not, so the exception leaves the function: the
    change is the only command attempted, no fallback add is run and no
    outcome is returned. *)
Theorem configure_interface_no_fallback_on_launch_error :
  issubclass FileNotFoundError SubprocessError = false /\
  configure_interface "eth0" "100" tool_missing init =
  (Raise (mkExc FileNotFoundError "[Errno 2] No such file or directory"),
   {| trace := [tc_argv "change" "eth0" "100"]; out := [] |}) /\
  ~ In (tc_argv "add" "eth0" "100")
       (trace (snd (configure_interface "eth0" "100" tool_missing init))).
Proof.
  split; [reflexivity | split; [reflexivity | ] ].
  cbn. intros [H | []]. discriminate H.
Qed.

(** C2.  When the external tool cannot be started the failure is not
    handled locally.  In each of the three modes the [FileNotFoundError]
    of the first command leaves [main]; no line reports the command, the
    remaining commands of the mode are not attempted, and the run ends in
    the interpreter's traceback with status 1. *)
Theorem launch_error_escapes_dispatcher :
  main bandwidth_args tool_missing init =
  (Raise (mkExc FileNotFoundError "[Errno 2] No such file or directory"),
   {| trace := [tc_argv "change" "eth0" "100"]; out := [] |}) /\
  main client_args tool_missing init =
  (Raise (mkExc FileNotFoundError "[Errno 2] No such file or directory"),
   {| trace := [subflow_argv];
      out := [to_stdout "Configuring MPTCP client mode..."] |}) /\
  main server_args tool_missing init =
  (Raise (mkExc FileNotFoundError "[Errno 2] No such file or directory"),
   {| trace := [subflow_argv];
      out := [to_stdout "Configuring MPTCP server mode..."] |}) /\
  run_script client_args tool_missing =
  (1, {| trace := [subflow_argv];
         out := [to_stdout "Configuring MPTCP client mode...";
                 to_stderr "Traceback (most recent call last): [Errno 2] No such file or directory"] |}).
Proof.
  repeat split.
Qed.



(** C4.  In bandwidth mode with one of [--iface1], [--bw1], [--iface2],
    [--bw2] absent or empty, and in mptcp-server mode with [--subflow-ip] or
    [--subflow-iface] absent or empty, the run ends with the usage error
    (status 2, one line on standard error) and no external command has
    been attempted: validation is over before anything is executed. *)
Theorem usage_error_before_any_command (args : Namespace) (w : world) :
  missing_required args ->
  fst (run_script args w) = 2 /\
  trace (snd (run_script args w)) = [] /\
  exists line, out (snd (run_script args w)) = [to_stderr line].
Proof.
  intros H. apply rejects_iff in H.
  destruct (run_script_rejected args w H) as [line ->].
  cbn. repeat split. now exists line.
Qed.

Lemma usage_error_before_any_command_witness :
  (fst (run_script (mkArgs "bandwidth" "eth0" "" "eth1" "50" PyNone PyNone) quiet) = 2 /\
   trace (snd (run_script (mkArgs "bandwidth" "eth0" "" "eth1" "50" PyNone PyNone) quiet)) = [] /\
   exists line,
     out (snd (run_script (mkArgs "bandwidth" "eth0" "" "eth1" "50" PyNone PyNone) quiet))
     = [to_stderr line]) /\
  (fst (run_script (mkArgs "mptcp-server" PyNone PyNone PyNone PyNone "10.0.0.1" PyNone) quiet) = 2 /\
   trace (snd (run_script (mkArgs "mptcp-server" PyNone PyNone PyNone PyNone "10.0.0.1" PyNone) quiet)) = [] /\
   exists line,
     out (snd (run_script (mkArgs "mptcp-server" PyNone PyNone PyNone PyNone "10.0.0.1" PyNone) quiet))
     = [to_stderr line]).
Proof.
  split.
  - apply usage_error_before_any_command.
    left. split; [reflexivity | ]. right; left. right; reflexivity.
  - apply usage_error_before_any_command.
    right. split; [reflexivity | ]. right. left; reflexivity.
Defined.

(** C5.  In bandwidth mode, when the first interface's change command
    cannot be started, the exception leaves [handle_bandwidth_mode]: the
    second interface is never attempted and no aggregate is computed. *)
Theorem second_interface_skipped_on_launch_error :
  handle_bandwidth_mode bandwidth_args tool_missing init =
  (Raise (mkExc FileNotFoundError "[Errno 2] No such file or directory"),
   {| trace := [tc_argv "change" "eth0" "100"]; out := [] |}) /\
  Forall (fun a => ~ In "eth1" a)
    (trace (snd (handle_bandwidth_mode bandwidth_args tool_missing init))).
Proof.
  split; [reflexivity | ].
  cbn. constructor; [ | constructor ].
  cbn. intros H.
  repeat (destruct H as [H | H]; [discriminate H | ]). exact H.
Qed.

(** C6.  In mptcp-client mode, when [ip] cannot be started, the exception
    raised for the subflow limit leaves the handler: the
    [add_addr_accepted] command is not issued. *)
Theorem client_second_command_skipped_on_launch_error :
  handle_mptcp_client_mode client_args tool_missing init =
  (Raise (mkExc FileNotFoundError "[Errno 2] No such file or directory"),
   {| trace := [subflow_argv];
      out := [to_stdout "Configuring MPTCP client mode..."] |}) /\
  ~ In add_addr_argv
       (trace (snd (handle_mptcp_client_mode client_args tool_missing init))).
Proof.
  split; [reflexivity | ].
  cbn. intros [H | []]. discriminate H.
Qed.

(** C7.  In mptcp-server mode, when [ip] cannot be started, the exception
    raised for the subflow limit leaves the handler: the endpoint is not
    added. *)
Theorem server_endpoint_skipped_on_launch_error :
  handle_mptcp_server_mode server_args tool_missing init =
  (Raise (mkExc FileNotFoundError "[Errno 2] No such file or directory"),
   {| trace := [subflow_argv];
      out := [to_stdout "Configuring MPTCP server mode..."] |}) /\
  ~ In (endpoint_argv "192.168.1.100" "eth0")
       (trace (snd (handle_mptcp_server_mode server_args tool_missing init))).
Proof.
  split; [reflexivity | ].
  cbn. intros [H | []]. discriminate H.
Qed.


(** C8.  A run that fails validation exits with status 2.  A run that
    passes it exits with 0 when the handler of the selected mode returned
    [True], and with 1 otherwise. *)
Theorem exit_code_reflects_outcome (args : Namespace) (w : world) :
  (missing_required args -> fst (run_script args w) = 2) /\
  (~ missing_required args ->
   (mode args = "bandwidth" ->
    fst (run_script args w) =
    if succeeded (handle_bandwidth_mode args w init) then 0 else 1) /\
   (mode args = "mptcp-client" ->
    fst (run_script args w) =
    if succeeded (handle_mptcp_client_mode args w init) then 0 else 1) /\
   (mode args = "mptcp-server" ->
    fst (run_script args w) =
    if succeeded (handle_mptcp_server_mode args w init) then 0 else 1)).
Proof.
  split.
  - intros H. apply rejects_iff in H.
    destruct (run_script_rejected args w H) as [line ->]. reflexivity.
  - intros H.
    assert (R : rejects args = false).
    { destruct (rejects args) eqn:R; [ | reflexivity ].
      now apply rejects_iff in R. }
    pose proof (run_script_accepted args w R) as E.
    unfold dispatch in E.
    repeat split; intros Hm; rewrite Hm in E; exact E.
Qed.

Lemma exit_code_reflects_outcome_witness :
  fst (run_script bandwidth_args no_qdisc_yet) = 0 /\
  fst (run_script client_args no_qdisc_yet) = 0 /\
  fst (run_script server_args
         (fun _ _ => Completed (mkCompleted 0 "" "RTNETLINK answers: File exists"))) = 1 /\
  fst (run_script (mkArgs "mptcp-server" PyNone PyNone PyNone PyNone PyNone "eth0") quiet) = 2.
Proof.
  assert (V : forall a, rejects a = false -> ~ missing_required a).
  { intros a R H. apply rejects_iff in H. congruence. }
  split; [ | split; [ | split ] ].
  - destruct (exit_code_reflects_outcome bandwidth_args no_qdisc_yet) as [_ H].
    destruct (H (V bandwidth_args eq_refl)) as (Hb & _ & _). exact (Hb eq_refl).
  - destruct (exit_code_reflects_outcome client_args no_qdisc_yet) as [_ H].
    destruct (H (V client_args eq_refl)) as (_ & Hc & _). exact (Hc eq_refl).
  - destruct (exit_code_reflects_outcome server_args
                (fun _ _ => Completed (mkCompleted 0 "" "RTNETLINK answers: File exists")))
      as [_ H].
    destruct (H (V server_args eq_refl)) as (_ & _ & Hs). exact (Hs eq_refl).
  - destruct (exit_code_reflects_outcome
                (mkArgs "mptcp-server" PyNone PyNone PyNone PyNone PyNone "eth0") quiet)
      as [H _].
    apply H. right. split; [reflexivity | ]. left. left; reflexivity.
Defined.

(** C9.  Bandwidth values are not checked to be numbers.  In bandwidth
    mode the run is rejected exactly when one of the four fields is absent
    or empty; with any non-empty strings the run is not rejected, the first
    command attempted is the [change] for the first interface with the
    first bandwidth string followed by "mbit" as its rate, and every
    command attempted carries its interface's bandwidth string in that
    way. *)
Theorem bandwidth_value_not_validated :
  (forall (args : Namespace) (w : world),
     mode args = "bandwidth" ->
     (fst (run_script args w) = 2 <-> missing_required args)) /\
  (forall (i1 b1 i2 b2 : string) (sip sif : value) (w : world),
     i1 <> "" -> b1 <> "" -> i2 <> "" -> b2 <> "" ->
     let run := run_script (mkArgs "bandwidth" i1 b1 i2 b2 sip sif) w in
     fst run <> 2 /\
     (exists rest,
        trace (snd run) =
        ["tc"; "qdisc"; "change"; "dev"; i1; "root"; "tbf"; "rate"; b1 ++ "mbit";
         "burst"; "256mbit"; "latency"; "600ms"] :: rest) /\
     Forall
       (fun a =>
          exists op, (op = "change" \/ op = "add") /\
            (a = tc_argv op i1 b1 \/ a = tc_argv op i2 b2))
       (trace (snd run))).
Proof.
  split.
  - intros args w Hm. split.
    + intros E. apply rejects_iff.
      destruct (rejects args) eqn:R; [reflexivity | ].
      rewrite (run_script_accepted args w R) in E.
      destruct (succeeded _); discriminate.
    + intros H. apply rejects_iff in H.
      destruct (run_script_rejected args w H) as [line ->]. reflexivity.
  - intros i1 b1 i2 b2 sip sif w H1 H2 H3 H4 run.
    set (args := mkArgs "bandwidth" i1 b1 i2 b2 sip sif) in *.
    assert (R : rejects args = false).
    { unfold rejects, all. cbn.
      apply truthy_true_iff in H1, H2, H3, H4. cbn in H1, H2, H3, H4.
      now rewrite H1, H2, H3, H4. }
    assert (T : exists f1 tail,
               trace (snd run) =
               (tc_argv "change" i1 b1 ::
                (if f1 : bool then [tc_argv "add" i1 b1] else []) ++ tail)%list /\
               (tail = [] \/
                exists f2 : bool,
                  tail = tc_argv "change" i2 b2 ::
                         (if f2 then [tc_argv "add" i2 b2] else []))).
    { subst run. unfold run_script. rewrite (main_accepted args w init R).
      unfold dispatch. cbn [mode args String.eqb Ascii.eqb Bool.eqb].
      rewrite handle_bandwidth_mode_spec. cbn [iface1 bw1 iface2 bw2 args].
      destruct (configure_interface_trace i1 (PyStr b1) w init) as [f1 E1].
      cbn [trace init app format] in E1.
      destruct (configure_interface i1 b1 w init) as [[r1|e|c] st1];
        cbn [snd] in E1.
      - destruct (configure_interface_trace i2 (PyStr b2) w st1) as [f2 E2].
        cbn [format] in E2. rewrite E1 in E2.
        exists f1, (tc_argv "change" i2 b2 ::
                    (if f2 then [tc_argv "add" i2 b2] else [])).
        split; [ | right; now exists f2 ].
        destruct (configure_interface i2 b2 w st1) as [[r2|e|c] st2];
          cbn [snd fst trace] in *; exact E2.
      - exists f1, []. split; [ | now left ].
        cbn [snd trace]. now rewrite app_nil_r.
      - exists f1, []. split; [ | now left ].
        cbn [snd trace]. now rewrite app_nil_r. }
    split; [ | split ].
    + subst run. rewrite (run_script_accepted args w R).
      destruct (succeeded _); discriminate.
    + destruct T as (f1 & tail & E & _). rewrite E.
      now eexists.
    + destruct T as (f1 & tail & E & Ht). rewrite E.
      constructor; [exists "change"; auto | ].
      apply Forall_app. split.
      * destruct f1; constructor; [exists "add"; auto | constructor].
      * destruct Ht as [-> | [f2 ->]]; [constructor | ].
        constructor; [exists "change"; auto | ].
        destruct f2; constructor; [exists "add"; auto | constructor].
Qed.

Lemma bandwidth_value_not_validated_witness :
  fst (run_script (mkArgs "bandwidth" "eth0" "abc" "eth1" "-5" PyNone PyNone) quiet) <> 2 /\
  (exists rest,
     trace (snd (run_script (mkArgs "bandwidth" "eth0" "abc" "eth1" "-5" PyNone PyNone) quiet)) =
     ["tc"; "qdisc"; "change"; "dev"; "eth0"; "root"; "tbf"; "rate"; "abcmbit";
      "burst"; "256mbit"; "latency"; "600ms"] :: rest) /\
  (fst (run_script (mkArgs "bandwidth" "eth0" PyNone "eth1" "-5" PyNone PyNone) quiet) = 2).
Proof.
  destruct bandwidth_value_not_validated as [Hrej Hrun].
  destruct (Hrun "eth0" "abc" "eth1" "-5" PyNone PyNone quiet) as (Hn & Ht & _);
    try discriminate.
  split; [exact Hn | split; [exact Ht | ] ].
  apply (Hrej (mkArgs "bandwidth" "eth0" PyNone "eth1" "-5" PyNone PyNone) quiet);
    [reflexivity | ].
  left. split; [reflexivity | ]. right; left. left; reflexivity.
Defined.

(** ** Further properties of the script *)


(** X2.  Whenever [configure_interface] returns it has printed exactly
    one line: on standard output when it returns [True], on standard error
    when it returns [False].  A change that failed leaves no line of its
    own. *)
Theorem configure_interface_one_line (iface bandwidth : value)
    (w : world) (st st' : state) (b : bool) :
  configure_interface iface bandwidth w st = (Ok b, st') ->
  exists line,
    out st' = (out st ++ [if b then to_stdout line else to_stderr line])%list.
Proof.
  destruct iface as [|iface].
  - unfold configure_interface, try_except, bind, subprocess_run. cbn.
    discriminate.
  - rewrite configure_interface_spec. cbv zeta. unfold fallback_outcome.
    destruct (w (trace st) _) as [p|e].
    + destruct (stderr p =? "").
      * intros H. inversion H. eexists. reflexivity.
      * cbn [trace attempted].
        destruct (w _ _) as [q|e].
        -- destruct (stderr q =? ""); intros H; inversion H; eexists; reflexivity.
        -- destruct (issubclass (cls e) SubprocessError); intros H; inversion H.
           eexists. reflexivity.
    + destruct (issubclass (cls e) SubprocessError); [ | discriminate ].
      cbn [trace attempted].
      destruct (w _ _) as [q|e'].
      * destruct (stderr q =? ""); intros H; inversion H; eexists; reflexivity.
      * destruct (issubclass (cls e') SubprocessError); intros H; inversion H.
        eexists. reflexivity.
Qed.

Lemma configure_interface_one_line_witness :
  exists line,
    out (snd (configure_interface "eth0" "100" complaining init)) =
    ([] ++ [to_stderr line])%list.
Proof.
  exact (configure_interface_one_line "eth0" "100" complaining init
           (snd (configure_interface "eth0" "100" complaining init)) false
           eq_refl).
Defined.

(** X3.  [configure_interface] cannot tell why the change failed.  Two
    worlds in which the change fails in a way the script handles, be it
    with different error texts or with a [SubprocessError], and which
    answer the add alike, give the same result, the same trace and the same
    printed lines: the error text of the change is never shown. *)
Theorem change_failure_cause_is_hidden (iface : string) (bandwidth : value)
    (w w' : world) (st : state) :
  let c := tc_argv "change" iface (format bandwidth) in
  let a := tc_argv "add" iface (format bandwidth) in
  verdict_of (w (trace st) c) = Handled ->
  verdict_of (w' (trace st) c) = Handled ->
  w (trace st ++ [c])%list a = w' (trace st ++ [c])%list a ->
  configure_interface iface bandwidth w st = configure_interface iface bandwidth w' st.
Proof.
  intros c a H H' Ha. rewrite !configure_interface_spec. cbv zeta.
  fold c. unfold verdict_of in H, H'.
  assert (E : fallback_outcome iface (format bandwidth) w (attempted c st) =
              fallback_outcome iface (format bandwidth) w' (attempted c st)).
  { unfold fallback_outcome. cbn [trace attempted]. fold a. now rewrite Ha. }
  destruct (w (trace st) c) as [p|e], (w' (trace st) c) as [p'|e'].
  - destruct (stderr p =? ""); [discriminate | ].
    destruct (stderr p' =? ""); [discriminate | exact E].
  - destruct (stderr p =? ""); [discriminate | ].
    destruct (issubclass (cls e') SubprocessError); [exact E | discriminate].
  - destruct (issubclass (cls e) SubprocessError); [ | discriminate ].
    destruct (stderr p' =? ""); [discriminate | exact E].
  - destruct (issubclass (cls e) SubprocessError); [ | discriminate ].
    destruct (issubclass (cls e') SubprocessError); [exact E | discriminate].
Qed.

Lemma change_failure_cause_is_hidden_witness :
  configure_interface "eth0" "100" complaining init =
  configure_interface "eth0" "100"
    (fun h a => match h with [] => timed_out h a | _ => complaining h a end) init.
Proof.
  apply (change_failure_cause_is_hidden "eth0" "100" complaining
           (fun h a => match h with [] => timed_out h a | _ => complaining h a end) init);
    reflexivity.
Defined.

(** X4.  Once [parse_args] has returned, with the mode one of the three
    it admits, the exit status is 0, 1 or 2, and it is 2 exactly when a
    field the mode requires is absent or empty: no outcome of an external
    command produces the usage status.  The usage errors [parse_args]
    raises itself, before [main] looks at the fields, are not part of this
    statement. *)
Theorem exit_status_range (args : Namespace) (w : world) :
  mode args = "bandwidth" \/ mode args = "mptcp-client" \/ mode args = "mptcp-server" ->
  (fst (run_script args w) = 2 <-> missing_required args) /\
  (fst (run_script args w) = 0 \/ fst (run_script args w) = 1 \/
   fst (run_script args w) = 2).
Proof.
  intros _. destruct (rejects args) eqn:R.
  - pose proof (proj1 (rejects_iff args) R) as Hm.
    destruct (run_script_rejected args w R) as [line ->]. cbn.
    split; [tauto | auto].
  - rewrite (run_script_accepted args w R).
    assert (Hn : ~ missing_required args).
    { intros H. apply rejects_iff in H. congruence. }
    destruct (succeeded _); split; try (split; [discriminate | contradiction]); auto.
Qed.

Lemma exit_status_range_witness :
  ((fst (run_script server_args complaining) = 2 <-> missing_required server_args) /\
   (fst (run_script server_args complaining) = 0 \/
    fst (run_script server_args complaining) = 1 \/
    fst (run_script server_args complaining) = 2)) /\
  ((fst (run_script (mkArgs "bandwidth" "eth0" "100" "eth1" PyNone PyNone PyNone) quiet) = 2 <->
    missing_required (mkArgs "bandwidth" "eth0" "100" "eth1" PyNone PyNone PyNone)) /\
   (fst (run_script (mkArgs "bandwidth" "eth0" "100" "eth1" PyNone PyNone PyNone) quiet) = 0 \/
    fst (run_script (mkArgs "bandwidth" "eth0" "100" "eth1" PyNone PyNone PyNone) quiet) = 1 \/
    fst (run_script (mkArgs "bandwidth" "eth0" "100" "eth1" PyNone PyNone PyNone) quiet) = 2)).
Proof.
  split.
  - apply (exit_status_range server_args complaining). right; right; reflexivity.
  - apply (exit_status_range
             (mkArgs "bandwidth" "eth0" "100" "eth1" PyNone PyNone PyNone) quiet).
    left; reflexivity.
Defined.

(** *** Standard error and the outcome *)

Lemma clean_printed (o : output) (st : state) :
  clean (printed o st) = clean st && negb (on_stderr o).
Proof.
  unfold clean, printed. cbn [out]. rewrite forallb_app. cbn [forallb].
  now rewrite andb_true_r.
Qed.

Lemma clean_attempted (a : argv) (st : state) : clean (attempted a st) = clean st.
Proof. reflexivity. Qed.

(** The loop variable of the MPTCP handlers tracks the silence of standard
    error. *)
Lemma run_and_check_clean (a : argv) (s s' : bool) (w : world) (st st' : state) :
  run_and_check (map PyStr a) s w st = (Ok s', st') ->
  s = clean st -> s' = clean st'.
Proof.
  rewrite run_and_check_spec. intros H Hs.
  destruct (w (trace st) a) as [p|e].
  - destruct (stderr p =? ""); inversion H; subst;
      rewrite clean_printed, clean_attempted; cbn [on_stderr negb];
      [now rewrite andb_true_r | now rewrite andb_false_r].
  - destruct (issubclass (cls e) SubprocessError); inversion H; subst.
    rewrite clean_printed, clean_attempted. cbn [on_stderr negb].
    now rewrite andb_false_r.
Qed.

Lemma mptcp_pair_clean (a1 a2 : argv) (w : world) (st st' : state) (b : bool) :
  match run_and_check (map PyStr a1) true w st with
  | (Ok s1, st1) => run_and_check (map PyStr a2) s1 w st1
  | other => other
  end = (Ok b, st') ->
  clean st = true -> b = clean st'.
Proof.
  intros H Hc.
  destruct (run_and_check (map PyStr a1) true w st) as [[s1|e|c] st1] eqn:E1;
    try discriminate.
  apply (run_and_check_clean a2 s1 b w st1 st' H).
  apply (run_and_check_clean a1 true s1 w st st1 E1). now symmetry.
Qed.

Lemma configure_interface_clean (iface : string) (bandwidth : value)
    (w : world) (st st' : state) (b : bool) :
  configure_interface iface bandwidth w st = (Ok b, st') ->
  clean st' = clean st && b.
Proof.
  rewrite configure_interface_spec. cbv zeta. unfold fallback_outcome.
  assert (T : forall o x, clean (printed (to_stdout o) (attempted x st)) = clean st && true).
  { intros. now rewrite clean_printed, clean_attempted. }
  assert (F : forall o x y,
             clean (printed (to_stderr o) (attempted x (attempted y st))) = clean st && false).
  { intros. rewrite clean_printed, !clean_attempted. cbn. now rewrite !andb_false_r. }
  assert (T2 : forall o x y,
             clean (printed (to_stdout o) (attempted x (attempted y st))) = clean st && true).
  { intros. now rewrite clean_printed, !clean_attempted. }
  destruct (w (trace st) _) as [p|e].
  - destruct (stderr p =? "").
    + intros H. inversion H. apply T.
    + cbn [trace attempted].
      destruct (w _ _) as [q|e].
      * destruct (stderr q =? ""); intros H; inversion H; [apply T2 | apply F].
      * destruct (issubclass (cls e) SubprocessError); intros H; inversion H.
        apply F.
  - destruct (issubclass (cls e) SubprocessError); [ | discriminate ].
    cbn [trace attempted].
    destruct (w _ _) as [q|e'].
    + destruct (stderr q =? ""); intros H; inversion H; [apply T2 | apply F].
    + destruct (issubclass (cls e') SubprocessError); intros H; inversion H.
      apply F.
Qed.

(** A handler that returns has kept standard error silent exactly when it
    returns [True]. *)
Lemma dispatch_clean (args : Namespace) (w : world) (st' : state) (b : bool) :
  rejects args = false ->
  mode args = "bandwidth" \/ mode args = "mptcp-client" \/ mode args = "mptcp-server" ->
  dispatch args w init = (Ok b, st') ->
  b = clean st'.
Proof.
  intros R Hm. unfold dispatch. unfold rejects, all in R.
  destruct args as [m i1 b1 i2 b2 sip sif]. cbn [mode] in *.
  destruct Hm as [-> | [-> | ->]]; cbn [String.eqb Ascii.eqb Bool.eqb] in *.
  - cbn [forallb iface1 bw1 iface2 bw2] in R.
    apply negb_false_iff in R.
    rewrite andb_true_r, !andb_true_iff in R.
    destruct R as (T1 & T2 & T3 & T4).
    destruct i1 as [|i1], b1 as [|b1], i2 as [|i2], b2 as [|b2];
      try discriminate.
    rewrite handle_bandwidth_mode_spec. cbn [iface1 bw1 iface2 bw2].
    destruct (configure_interface i1 b1 w init) as [[r1|e|c] st1] eqn:E1;
      try discriminate.
    destruct (configure_interface i2 b2 w st1) as [[r2|e|c] st2] eqn:E2;
      try discriminate.
    intros H. inversion H. subst.
    rewrite (configure_interface_clean _ _ _ _ _ _ E2).
    now rewrite (configure_interface_clean _ _ _ _ _ _ E1).
  - rewrite client_mode_spec. cbv zeta. intros H.
    now apply (mptcp_pair_clean _ _ _ _ _ _ H).
  - cbn [subflow_ip subflow_iface] in R.
    apply orb_false_iff in R. destruct R as [T1 T2].
    apply negb_false_iff in T1, T2.
    destruct sip as [|ip], sif as [|dev]; try discriminate.
    rewrite (server_mode_spec _ ip dev) by reflexivity. cbv zeta. intros H.
    now apply (mptcp_pair_clean _ _ _ _ _ _ H).
Qed.

(** X5.  For the three modes the parser admits, the exit status is 0
    exactly when the run printed nothing on standard error: every failure,
    a usage error, an error text, a handled launch failure or a traceback,
    leaves a line there, and no success does. *)
Theorem success_iff_stderr_silent (args : Namespace) (w : world) :
  mode args = "bandwidth" \/ mode args = "mptcp-client" \/ mode args = "mptcp-server" ->
  (fst (run_script args w) = 0 <-> clean (snd (run_script args w)) = true).
Proof.
  intros Hm. destruct (rejects args) eqn:R.
  - destruct (run_script_rejected args w R) as [line ->]. cbn.
    split; discriminate.
  - unfold run_script. rewrite (main_accepted args w init R).
    pose proof (no_exit_dispatch args w init) as N.
    destruct (dispatch args w init) as [[b|e|c] st'] eqn:D; cbn [fst] in N;
      [ | | contradiction ].
    + rewrite (dispatch_clean args w st' b R Hm D). cbn [fst snd].
      destruct (clean st'); split; (reflexivity || discriminate).
    + cbn [fst snd]. unfold clean. cbn [out]. rewrite forallb_app. cbn.
      rewrite andb_false_r. split; discriminate.
Qed.

Lemma success_iff_stderr_silent_witness :
  (fst (run_script bandwidth_args no_qdisc_yet) = 0 <->
   clean (snd (run_script bandwidth_args no_qdisc_yet)) = true) /\
  (fst (run_script server_args tool_missing) = 0 <->
   clean (snd (run_script server_args tool_missing)) = true).
Proof.
  split.
  - apply (success_iff_stderr_silent bandwidth_args no_qdisc_yet).
    left; reflexivity.
  - apply (success_iff_stderr_silent server_args tool_missing).
    right; right; reflexivity.
Defined.

(** *** The commands each mode attempts *)

Lemma configure_interface_trace_exact (iface : string) (bandwidth : value)
    (w : world) (st : state) :
  let c := tc_argv "change" iface (format bandwidth) in
  let a := tc_argv "add" iface (format bandwidth) in
  let lc := w (trace st) c in
  let la := w (trace st ++ [c])%list a in
  let r := configure_interface iface bandwidth w st in
  trace (snd r) =
  (trace st ++ c :: (if invocation_failed lc && caught lc then [a] else []))%list /\
  returns r = caught lc && (negb (invocation_failed lc) || caught la).
Proof.
  intros c a lc la r. subst r lc la.
  rewrite configure_interface_spec. cbv zeta. fold c. fold a.
  unfold fallback_outcome. fold a.
  assert (F : forall x : list argv,
             x = ((trace st ++ [c]) ++ [a])%list -> x = (trace st ++ [c; a])%list).
  { intros x ->. now rewrite <- app_assoc. }
  unfold invocation_failed, caught, returns.
  destruct (w (trace st) c) as [p|e].
  - destruct (stderr p =? ""); cbn [negb andb orb]; [now split | ].
    cbn [trace attempted].
    destruct (w (trace st ++ [c])%list a) as [q|e].
    + destruct (stderr q =? ""); cbn; repeat split; now apply F.
    + destruct (issubclass (cls e) SubprocessError); cbn; repeat split; now apply F.
  - destruct (issubclass (cls e) SubprocessError); cbn [negb andb orb];
      [ | now split ].
    cbn [trace attempted].
    destruct (w (trace st ++ [c])%list a) as [q|e'].
    + destruct (stderr q =? ""); cbn; repeat split; now apply F.
    + destruct (issubclass (cls e') SubprocessError); cbn; repeat split; now apply F.
Qed.

(** X6.  The commands of bandwidth mode, in every world.  The first
    interface's change comes first and its add follows exactly when the
    change failed and was handled; the second interface is then treated in
    the same way, provided the first call returned.  An add is never
    attempted except right after the change of the same interface, and
    at least one and at most four commands are attempted. *)
Theorem bandwidth_mode_commands (m i1 b1 i2 b2 : string) (sip sif : value)
    (w : world) (st : state) :
  let c1 := tc_argv "change" i1 b1 in
  let a1 := tc_argv "add" i1 b1 in
  let c2 := tc_argv "change" i2 b2 in
  let a2 := tc_argv "add" i2 b2 in
  let l1 := w (trace st) c1 in
  let t1 :=
    (trace st ++ c1 :: (if invocation_failed l1 && caught l1 then [a1] else []))%list in
  let first_returned :=
    caught l1 && (negb (invocation_failed l1) || caught (w (trace st ++ [c1])%list a1)) in
  let l2 := w t1 c2 in
  let t := trace (snd (handle_bandwidth_mode (mkArgs m i1 b1 i2 b2 sip sif) w st)) in
  t = (t1 ++
       (if first_returned
        then c2 :: (if invocation_failed l2 && caught l2 then [a2] else [])
        else []))%list /\
  (length (trace st) + 1 <= length t <= length (trace st) + 4)%nat.
Proof.
  intros c1 a1 c2 a2 l1 t1 first_returned l2 t.
  assert (E : t = (t1 ++
       (if first_returned
        then c2 :: (if invocation_failed l2 && caught l2 then [a2] else [])
        else []))%list).
  { subst t. rewrite handle_bandwidth_mode_spec. cbn [iface1 bw1 iface2 bw2].
    destruct (configure_interface_trace_exact i1 b1 w st) as [T1 R1].
    cbv zeta in T1, R1. cbn [format] in T1, R1.
    fold c1 in T1, R1. fold a1 in T1, R1. fold l1 in T1, R1.
    fold t1 in T1. fold first_returned in R1.
    unfold returns in R1.
    destruct (configure_interface i1 b1 w st) as [[r1|e|c] st1];
      cbn [fst snd] in T1, R1; rewrite <- R1.
    - destruct (configure_interface_trace_exact i2 b2 w st1) as [T2 _].
      cbv zeta in T2. cbn [format] in T2. rewrite T1 in T2.
      fold c2 in T2. fold a2 in T2. fold l2 in T2.
      destruct (configure_interface i2 b2 w st1) as [[r2|e|c] st2];
        cbn [snd] in *; exact T2.
    - cbn [snd]. now rewrite app_nil_r.
    - cbn [snd]. now rewrite app_nil_r. }
  split; [exact E | ].
  rewrite E. subst t1. rewrite !length_app. cbn [length].
  destruct (invocation_failed l1 && caught l1), first_returned;
    try destruct (invocation_failed l2 && caught l2); cbn [length]; lia.
Qed.

Lemma mptcp_pair_shape (a1 a2 : argv) (w : world) (st : state) :
  let l1 := w (trace st) a1 in
  let l2 := w (trace st ++ [a1])%list a2 in
  let r :=
    match run_and_check (map PyStr a1) true w st with
    | (Ok s1, st1) => run_and_check (map PyStr a2) s1 w st1
    | other => other
    end in
  trace (snd r) = (trace st ++ a1 :: (if caught l1 then [a2] else []))%list /\
  returns r = caught l1 && caught l2 /\
  length (out (snd r)) =
  (length (out st) + (if caught l1 then 1 + (if caught l2 then 1 else 0) else 0))%nat.
Proof.
  cbv zeta. rewrite run_and_check_spec. unfold caught, returns.
  assert (F : forall x : list argv,
             x = ((trace st ++ [a1]) ++ [a2])%list -> x = (trace st ++ [a1; a2])%list).
  { intros x ->. now rewrite <- app_assoc. }
  assert (L : forall (l : list output) o, length (l ++ [o])%list = (length l + 1)%nat).
  { intros. rewrite length_app. reflexivity. }
  destruct (w (trace st) a1) as [p|e].
  - destruct (stderr p =? ""); rewrite run_and_check_spec;
      cbn [trace out printed attempted];
      (destruct (w (trace st ++ [a1])%list a2) as [q|e];
       [destruct (stderr q =? "") | destruct (issubclass (cls e) SubprocessError)]);
      cbn [fst snd trace out printed attempted andb];
      repeat split; try (now apply F); rewrite ?L; lia.
  - destruct (issubclass (cls e) SubprocessError).
    + rewrite run_and_check_spec; cbn [trace out printed attempted];
        (destruct (w (trace st ++ [a1])%list a2) as [q|e'];
         [destruct (stderr q =? "") | destruct (issubclass (cls e') SubprocessError)]);
        cbn [fst snd trace out printed attempted andb];
        repeat split; try (now apply F); rewrite ?L; lia.
    + cbn [fst snd trace out attempted andb]. repeat split. lia.
Qed.

(** X7.  The commands and lines of the two MPTCP handlers, in every world.
    The subflow limit is attempted first; the second command is attempted
    exactly when the script could go on after the first; the handler
    returns exactly when it could go on after both.  Besides the banner,
    one line is printed for each command the script could go on after, and
    none for a launch failure that escapes. *)
Theorem mptcp_mode_commands :
  (forall (args : Namespace) (w : world) (st : state),
     let l1 := w (trace st) subflow_argv in
     let l2 := w (trace st ++ [subflow_argv])%list add_addr_argv in
     let r := handle_mptcp_client_mode args w st in
     trace (snd r) =
     (trace st ++ subflow_argv :: (if caught l1 then [add_addr_argv] else []))%list /\
     returns r = caught l1 && caught l2 /\
     length (out (snd r)) =
     (length (out st) + 1 +
      (if caught l1 then 1 + (if caught l2 then 1 else 0) else 0))%nat) /\
  (forall (m : string) (i1 b1 i2 b2 : value) (ip dev : string) (w : world) (st : state),
     let l1 := w (trace st) subflow_argv in
     let l2 := w (trace st ++ [subflow_argv])%list (endpoint_argv ip dev) in
     let r := handle_mptcp_server_mode (mkArgs m i1 b1 i2 b2 ip dev) w st in
     trace (snd r) =
     (trace st ++ subflow_argv :: (if caught l1 then [endpoint_argv ip dev] else []))%list /\
     returns r = caught l1 && caught l2 /\
     length (out (snd r)) =
     (length (out st) + 1 +
      (if caught l1 then 1 + (if caught l2 then 1 else 0) else 0))%nat).
Proof.
  split.
  - intros args w st. cbv zeta. rewrite client_mode_spec. cbv zeta.
    destruct (mptcp_pair_shape subflow_argv add_addr_argv w
                (printed (to_stdout "Configuring MPTCP client mode...") st))
      as (T & R & L).
    cbv zeta in T, R, L. cbn [trace out printed] in T, R, L.
    rewrite length_app in L. cbn [length] in L.
    repeat split; [exact T | exact R | lia].
  - intros m i1 b1 i2 b2 ip dev w st. cbv zeta.
    rewrite (server_mode_spec _ ip dev) by reflexivity. cbv zeta.
    destruct (mptcp_pair_shape subflow_argv (endpoint_argv ip dev) w
                (printed (to_stdout "Configuring MPTCP server mode...") st))
      as (T & R & L).
    cbv zeta in T, R, L. cbn [trace out printed] in T, R, L.
    rewrite length_app in L. cbn [length] in L.
    repeat split; [exact T | exact R | lia].
Qed.



(** X9.  A mode reads its own fields only.  Client mode gives the same
    run whatever the six fields hold; bandwidth mode ignores the subflow
    fields; server mode ignores the interface and bandwidth fields.  A
    field given for another mode is neither rejected nor used. *)
Theorem fields_of_other_modes_ignored :
  (forall (i1 b1 i2 b2 sip sif i1' b1' i2' b2' sip' sif' : value) (w : world),
     run_script (mkArgs "mptcp-client" i1 b1 i2 b2 sip sif) w =
     run_script (mkArgs "mptcp-client" i1' b1' i2' b2' sip' sif') w) /\
  (forall (i1 b1 i2 b2 sip sif sip' sif' : value) (w : world),
     run_script (mkArgs "bandwidth" i1 b1 i2 b2 sip sif) w =
     run_script (mkArgs "bandwidth" i1 b1 i2 b2 sip' sif') w) /\
  (forall (i1 b1 i2 b2 sip sif i1' b1' i2' b2' : value) (w : world),
     run_script (mkArgs "mptcp-server" i1 b1 i2 b2 sip sif) w =
     run_script (mkArgs "mptcp-server" i1' b1' i2' b2' sip sif) w).
Proof.
  repeat split.
Qed.

(** *** Control flow sees three verdicts only *)

Lemma run_and_check_twin (a : argv) (s : bool) (w1 w2 : world) (st1 st2 : state) :
  same_verdicts w1 w2 -> trace st1 = trace st2 ->
  twin (run_and_check (map PyStr a) s w1 st1) (run_and_check (map PyStr a) s w2 st2).
Proof.
  intros Hv Ht. rewrite !run_and_check_spec.
  pose proof (Hv (trace st1) a) as H. rewrite Ht in *. unfold verdict_of in H.
  unfold twin.
  destruct (w1 (trace st2) a) as [p|e], (w2 (trace st2) a) as [q|e'].
  - destruct (stderr p =? ""), (stderr q =? ""); try discriminate;
      cbn [fst snd trace printed attempted summary]; now rewrite Ht.
  - destruct (stderr p =? ""), (issubclass (cls e') SubprocessError);
      try discriminate;
      cbn [fst snd trace printed attempted summary]; now rewrite Ht.
  - destruct (issubclass (cls e) SubprocessError), (stderr q =? "");
      try discriminate;
      cbn [fst snd trace printed attempted summary]; now rewrite Ht.
  - destruct (issubclass (cls e) SubprocessError),
      (issubclass (cls e') SubprocessError); try discriminate;
      cbn [fst snd trace printed attempted summary]; now rewrite Ht.
Qed.

Lemma mptcp_pair_twin (a1 a2 : argv) (w1 w2 : world) (st1 st2 : state) :
  same_verdicts w1 w2 -> trace st1 = trace st2 ->
  twin
    match run_and_check (map PyStr a1) true w1 st1 with
    | (Ok s1, st) => run_and_check (map PyStr a2) s1 w1 st
    | other => other
    end
    match run_and_check (map PyStr a1) true w2 st2 with
    | (Ok s1, st) => run_and_check (map PyStr a2) s1 w2 st
    | other => other
    end.
Proof.
  intros Hv Ht.
  destruct (run_and_check_twin a1 true w1 w2 st1 st2 Hv Ht) as [T S].
  destruct (run_and_check (map PyStr a1) true w1 st1) as [[s1|e1|c1] st1'],
    (run_and_check (map PyStr a1) true w2 st2) as [[s2|e2|c2] st2'];
    cbn [fst snd summary] in T, S; try discriminate; try (now split).
  inversion S. subst. now apply run_and_check_twin.
Qed.

Lemma fallback_twin (iface bw : string) (w1 w2 : world) (st1 st2 : state) :
  same_verdicts w1 w2 -> trace st1 = trace st2 ->
  twin (fallback_outcome iface bw w1 st1) (fallback_outcome iface bw w2 st2).
Proof.
  intros Hv Ht. unfold fallback_outcome, twin.
  pose proof (Hv (trace st1) (tc_argv "add" iface bw)) as H.
  rewrite Ht in *. unfold verdict_of in H.
  destruct (w1 (trace st2) _) as [p|e], (w2 (trace st2) _) as [q|e'].
  - destruct (stderr p =? ""), (stderr q =? ""); try discriminate;
      cbn [fst snd trace printed attempted summary]; now rewrite Ht.
  - destruct (stderr p =? ""), (issubclass (cls e') SubprocessError);
      try discriminate;
      cbn [fst snd trace printed attempted summary]; now rewrite Ht.
  - destruct (issubclass (cls e) SubprocessError), (stderr q =? "");
      try discriminate;
      cbn [fst snd trace printed attempted summary]; now rewrite Ht.
  - destruct (issubclass (cls e) SubprocessError),
      (issubclass (cls e') SubprocessError); try discriminate;
      cbn [fst snd trace printed attempted summary]; now rewrite Ht.
Qed.

Lemma configure_interface_twin (iface : string) (bandwidth : value)
    (w1 w2 : world) (st1 st2 : state) :
  same_verdicts w1 w2 -> trace st1 = trace st2 ->
  twin (configure_interface iface bandwidth w1 st1)
       (configure_interface iface bandwidth w2 st2).
Proof.
  intros Hv Ht. rewrite !configure_interface_spec. cbv zeta.
  set (c := tc_argv "change" iface (format bandwidth)).
  pose proof (Hv (trace st1) c) as H. unfold verdict_of in H.
  assert (F : twin (fallback_outcome iface (format bandwidth) w1 (attempted c st1))
                   (fallback_outcome iface (format bandwidth) w2 (attempted c st2))).
  { apply fallback_twin; [exact Hv | ]. cbn [trace attempted]. now rewrite Ht. }
  rewrite Ht in H. rewrite Ht.
  destruct (w1 (trace st2) c) as [p|e], (w2 (trace st2) c) as [q|e'].
  - destruct (stderr p =? ""), (stderr q =? ""); try discriminate; [ | exact F ].
    split; cbn [fst snd trace printed attempted summary]; now rewrite ?Ht.
  - destruct (stderr p =? ""), (issubclass (cls e') SubprocessError);
      try discriminate. exact F.
  - destruct (issubclass (cls e) SubprocessError), (stderr q =? "");
      try discriminate. exact F.
  - destruct (issubclass (cls e) SubprocessError),
      (issubclass (cls e') SubprocessError); try discriminate; [exact F | ].
    split; cbn [fst snd trace printed attempted summary]; now rewrite ?Ht.
Qed.

Lemma dispatch_twin (args : Namespace) (w1 w2 : world) :
  rejects args = false -> same_verdicts w1 w2 ->
  twin (dispatch args w1 init) (dispatch args w2 init).
Proof.
  intros R Hv. unfold dispatch. unfold rejects, all in R.
  destruct args as [m i1 b1 i2 b2 sip sif]. cbn [mode] in *.
  destruct (m =? "bandwidth").
  - cbn [forallb iface1 bw1 iface2 bw2] in R.
    apply negb_false_iff in R.
    rewrite andb_true_r, !andb_true_iff in R.
    destruct R as (T1 & T2 & T3 & T4).
    destruct i1 as [|i1], b1 as [|b1], i2 as [|i2], b2 as [|b2];
      try discriminate.
    rewrite !handle_bandwidth_mode_spec. cbn [iface1 bw1 iface2 bw2].
    destruct (configure_interface_twin i1 b1 w1 w2 init init Hv eq_refl) as [T S].
    destruct (configure_interface i1 b1 w1 init) as [[r1|e1|c1] st1],
      (configure_interface i1 b1 w2 init) as [[r1'|e1'|c1'] st1'];
      cbn [fst snd summary] in T, S; try discriminate; try (now split).
    inversion S. subst r1'.
    destruct (configure_interface_twin i2 b2 w1 w2 st1 st1' Hv T) as [T' S'].
    destruct (configure_interface i2 b2 w1 st1) as [[r2|e2|c2] st2],
      (configure_interface i2 b2 w2 st1') as [[r2'|e2'|c2'] st2'];
      cbn [fst snd summary] in T', S'; try discriminate; try (now split).
    inversion S'. now split.
  - destruct (m =? "mptcp-client").
    + rewrite !client_mode_spec. cbv zeta. now apply mptcp_pair_twin.
    + destruct (m =? "mptcp-server"); [ | now split ].
      cbn [subflow_ip subflow_iface] in R.
      apply orb_false_iff in R. destruct R as [T1 T2].
      apply negb_false_iff in T1, T2.
      destruct sip as [|ip], sif as [|dev]; try discriminate.
      rewrite !(server_mode_spec _ ip dev) by reflexivity. cbv zeta.
      now apply mptcp_pair_twin.
Qed.

(** X10.  The exit status and the commands attempted depend on each
    invocation through one of three verdicts only: silent, failed and
    handled (error text or a caught launch failure alike), or escaped.  Two
    worlds that give every invocation the same verdict, whatever the error
    texts, exceptions, standard output and exit statuses are, lead to the
    same exit status and the same sequence of commands. *)
Theorem control_flow_sees_verdicts_only (args : Namespace) (w1 w2 : world) :
  same_verdicts w1 w2 ->
  fst (run_script args w1) = fst (run_script args w2) /\
  trace (snd (run_script args w1)) = trace (snd (run_script args w2)).
Proof.
  intros Hv. destruct (rejects args) eqn:R.
  - destruct (run_script_rejected args w1 R) as [l1 ->].
    destruct (run_script_rejected args w2 R) as [l2 ->].
    now split.
  - unfold run_script. rewrite !(main_accepted args _ init R).
    destruct (dispatch_twin args w1 w2 R Hv) as [T S].
    pose proof (no_exit_dispatch args w1 init) as N1.
    pose proof (no_exit_dispatch args w2 init) as N2.
    destruct (dispatch args w1 init) as [[r1|e1|c1] st1],
      (dispatch args w2 init) as [[r2|e2|c2] st2];
      cbn [fst snd summary] in *; try contradiction; try discriminate.
    + inversion S. now split.
    + now split.
Qed.

Lemma control_flow_sees_verdicts_only_witness :
  fst (run_script bandwidth_args complaining) = fst (run_script bandwidth_args timed_out) /\
  trace (snd (run_script bandwidth_args complaining)) =
  trace (snd (run_script bandwidth_args timed_out)).
Proof.
  apply (control_flow_sees_verdicts_only bandwidth_args complaining timed_out).
  intros h a. reflexivity.
Defined.

(** *** Success of bandwidth mode in terms of the world *)

Lemma configure_interface_succeeded_exact (iface : string) (bandwidth : value)
    (w : world) (st : state) :
  let c := tc_argv "change" iface (format bandwidth) in
  let a := tc_argv "add" iface (format bandwidth) in
  succeeded (configure_interface iface bandwidth w st) =
  negb (invocation_failed (w (trace st) c)) ||
  (caught (w (trace st) c) && negb (invocation_failed (w (trace st ++ [c])%list a))).
Proof.
  cbv zeta. rewrite configure_interface_spec. cbv zeta.
  unfold fallback_outcome, invocation_failed, caught, succeeded.
  destruct (w (trace st) _) as [p|e].
  - destruct (stderr p =? ""); cbn [negb andb orb fst]; [reflexivity | ].
    cbn [trace attempted].
    destruct (w _ _) as [q|e];
      [destruct (stderr q =? "") | destruct (issubclass (cls e) SubprocessError)];
      reflexivity.
  - destruct (issubclass (cls e) SubprocessError); cbn [negb andb orb fst];
      [ | reflexivity ].
    cbn [trace attempted].
    destruct (w _ _) as [q|e'];
      [destruct (stderr q =? "") | destruct (issubclass (cls e') SubprocessError)];
      reflexivity.
Qed.

(** X11.  Bandwidth mode returns [True] exactly when both interfaces
    succeed, each by a silent change or, after a failed change the script
    handled, by a silent add; when either interface fails both of its
    steps the result is not [True].  The second interface is judged on the
    world as the first left it. *)
Theorem bandwidth_mode_success (m i1 b1 i2 b2 : string) (sip sif : value)
    (w : world) (st : state) :
  let c1 := tc_argv "change" i1 b1 in
  let a1 := tc_argv "add" i1 b1 in
  let c2 := tc_argv "change" i2 b2 in
  let a2 := tc_argv "add" i2 b2 in
  let l1 := w (trace st) c1 in
  let ok1 :=
    negb (invocation_failed l1) ||
    (caught l1 && negb (invocation_failed (w (trace st ++ [c1])%list a1))) in
  let t1 :=
    (trace st ++ c1 :: (if invocation_failed l1 && caught l1 then [a1] else []))%list in
  let l2 := w t1 c2 in
  let ok2 :=
    negb (invocation_failed l2) ||
    (caught l2 && negb (invocation_failed (w (t1 ++ [c2])%list a2))) in
  succeeded (handle_bandwidth_mode (mkArgs m i1 b1 i2 b2 sip sif) w st) = ok1 && ok2.
Proof.
  intros c1 a1 c2 a2 l1 ok1 t1 l2 ok2.
  rewrite handle_bandwidth_mode_spec. cbn [iface1 bw1 iface2 bw2].
  pose proof (configure_interface_succeeded_exact i1 b1 w st) as S1.
  destruct (configure_interface_trace_exact i1 b1 w st) as [T1 _].
  cbv zeta in S1, T1. cbn [format] in S1, T1.
  fold c1 in S1, T1. fold a1 in S1, T1. fold l1 in S1, T1.
  fold ok1 in S1. fold t1 in T1.
  unfold succeeded in S1.
  destruct (configure_interface i1 b1 w st) as [[r1|e|c] st1];
    cbn [fst snd] in S1, T1; rewrite <- S1; try reflexivity.
  pose proof (configure_interface_succeeded_exact i2 b2 w st1) as S2.
  cbv zeta in S2. cbn [format] in S2. rewrite T1 in S2.
  fold c2 in S2. fold a2 in S2. fold l2 in S2. fold ok2 in S2.
  unfold succeeded in S2 |- *.
  destruct (configure_interface i2 b2 w st1) as [[r2|e|c] st2];
    cbn [fst] in S2 |- *; rewrite <- S2.
  - now destruct r1, r2.
  - destruct r1; reflexivity.
  - destruct r1; reflexivity.
Qed.

(** *** The programs that are run *)

Lemma configure_interface_members (P : argv -> Prop) (iface : string)
    (bandwidth : value) (w : world) (st : state) :
  P (tc_argv "change" iface (format bandwidth)) ->
  P (tc_argv "add" iface (format bandwidth)) ->
  Forall P (trace st) ->
  Forall P (trace (snd (configure_interface iface bandwidth w st))).
Proof.
  intros Pc Pa Hst.
  destruct (configure_interface_trace iface bandwidth w st) as [f ->].
  apply Forall_app. split; [exact Hst | ].
  constructor; [exact Pc | ].
  destruct f; [constructor; [exact Pa | constructor] | constructor].
Qed.

Lemma mptcp_pair_members (P : argv -> Prop) (a1 a2 : argv) (w : world) (st : state) :
  P a1 -> P a2 -> Forall P (trace st) ->
  Forall P
    (trace (snd match run_and_check (map PyStr a1) true w st with
                | (Ok s1, st1) => run_and_check (map PyStr a2) s1 w st1
                | other => other
                end)).
Proof.
  intros P1 P2 Hst.
  destruct (mptcp_pair_shape a1 a2 w st) as (T & _ & _). cbv zeta in T.
  rewrite T. apply Forall_app. split; [exact Hst | ].
  constructor; [exact P1 | ].
  destruct (caught _); [constructor; [exact P2 | constructor] | constructor].
Qed.

Lemma run_script_trace (args : Namespace) (w : world) :
  rejects args = false ->
  trace (snd (run_script args w)) = trace (snd (dispatch args w init)).
Proof.
  intros R. unfold run_script. rewrite (main_accepted args w init R).
  now destruct (dispatch args w init) as [[b|e|c] st].
Qed.

(** X12.  Whatever the command line holds and whatever the world does,
    the only programs the script starts are [tc qdisc] and [ip mptcp], and
    the number of arguments is fixed: thirteen for [tc], six or eight for
    [ip].  A value from the command line fills one argument and cannot add
    a command or an argument. *)
Theorem only_tc_and_ip_are_run (args : Namespace) (w : world) :
  Forall script_command (trace (snd (run_script args w))).
Proof.
  assert (TC : forall op i b, script_command (tc_argv op i b)).
  { intros. left. eexists. split; reflexivity. }
  assert (S1 : script_command subflow_argv).
  { right. eexists. split; [reflexivity | left; reflexivity]. }
  assert (S2 : script_command add_addr_argv).
  { right. eexists. split; [reflexivity | left; reflexivity]. }
  assert (S3 : forall ip dev, script_command (endpoint_argv ip dev)).
  { intros. right. eexists. split; [reflexivity | right; reflexivity]. }
  destruct (rejects args) eqn:R.
  - destruct (run_script_rejected args w R) as [line ->]. constructor.
  - rewrite (run_script_trace args w R).
    unfold dispatch. unfold rejects, all in R.
    destruct args as [m i1 b1 i2 b2 sip sif]. cbn [mode] in *.
    destruct (m =? "bandwidth").
    + cbn [forallb iface1 bw1 iface2 bw2] in R.
      apply negb_false_iff in R.
      rewrite andb_true_r, !andb_true_iff in R.
      destruct R as (T1 & T2 & T3 & T4).
      destruct i1 as [|i1], b1 as [|b1], i2 as [|i2], b2 as [|b2];
        try discriminate.
      rewrite handle_bandwidth_mode_spec. cbn [iface1 bw1 iface2 bw2].
      assert (H1 : Forall script_command
                     (trace (snd (configure_interface i1 b1 w init)))).
      { apply configure_interface_members; [apply TC | apply TC | constructor]. }
      destruct (configure_interface i1 b1 w init) as [[r1|e|c] st1];
        cbn [snd] in H1 |- *; try exact H1.
      assert (H2 : Forall script_command
                     (trace (snd (configure_interface i2 b2 w st1)))).
      { apply configure_interface_members; [apply TC | apply TC | exact H1]. }
      destruct (configure_interface i2 b2 w st1) as [[r2|e|c] st2];
        cbn [snd] in H2 |- *; exact H2.
    + destruct (m =? "mptcp-client").
      * rewrite client_mode_spec. cbv zeta.
        apply mptcp_pair_members; [exact S1 | exact S2 | constructor].
      * destruct (m =? "mptcp-server"); [ | constructor ].
        cbn [subflow_ip subflow_iface] in R.
        apply orb_false_iff in R. destruct R as [T1 T2].
        apply negb_false_iff in T1, T2.
        destruct sip as [|ip], sif as [|dev]; try discriminate.
        rewrite (server_mode_spec _ ip dev) by reflexivity. cbv zeta.
        apply mptcp_pair_members; [exact S1 | apply S3 | constructor].
Qed.

(** *** Edge cases and diagnostics *)

(** X13.  What the handlers do with a field that is still [None], which
    only the validation in [main] keeps from them.  Without an interface
    name [configure_interface] raises [TypeError] at once: no command is
    attempted and nothing is printed.  Without a bandwidth it does not
    stop: the change is attempted with the rate "Nonembit".  Without a
    subflow address server mode still sets the subflow limit before the
    endpoint command raises [TypeError]. *)
Theorem handlers_on_missing_fields :
  (forall (bandwidth : value) (w : world) (st : state),
     exists e,
       configure_interface PyNone bandwidth w st = (Raise e, st) /\
       cls e = TypeError) /\
  (forall (iface : string) (w : world) (st : state),
     exists rest,
       trace (snd (configure_interface iface PyNone w st)) =
       (trace st ++ tc_argv "change" iface "None" :: rest)%list) /\
  (forall (m : string) (i1 b1 i2 b2 dev : value) (w : world) (st : state),
     let r := handle_mptcp_server_mode (mkArgs m i1 b1 i2 b2 PyNone dev) w st in
     trace (snd r) = (trace st ++ [subflow_argv])%list /\
     returns r = false /\
     (caught (w (trace st) subflow_argv) = true ->
      exists e, fst r = Raise e /\ cls e = TypeError)).
Proof.
  split; [ | split ].
  - intros bandwidth w st. eexists. split; reflexivity.
  - intros iface w st.
    destruct (configure_interface_trace iface PyNone w st) as [f ->].
    now eexists.
  - intros m i1 b1 i2 b2 dev w st r.
    assert (E : forall s st0,
               run_and_check
                 (endpoint_cmd (mkArgs m i1 b1 i2 b2 PyNone dev)) s w st0 =
               (Raise (mkExc TypeError
                         "expected str, bytes or os.PathLike object, not NoneType"),
                st0)).
    { intros. reflexivity. }
    assert (R : r =
                match run_and_check (map PyStr subflow_argv) true w
                        (printed (to_stdout "Configuring MPTCP server mode...") st) with
                | (Ok s1, st1) =>
                    run_and_check (endpoint_cmd (mkArgs m i1 b1 i2 b2 PyNone dev)) s1 w st1
                | other => other
                end).
    { subst r. rewrite server_unfold. unfold bind at 1. cbn [print].
      now rewrite for_in_two. }
    rewrite R. clear R r.
    rewrite run_and_check_spec. cbn [trace printed]. unfold caught, returns.
    destruct (w (trace st) subflow_argv) as [p|e].
    + destruct (stderr p =? ""); rewrite E; cbn [fst snd trace printed attempted];
        (split; [reflexivity | split; [reflexivity | intros _; eexists; split; reflexivity]]).
    + destruct (issubclass (cls e) SubprocessError).
      * rewrite E; cbn [fst snd trace printed attempted].
        split; [reflexivity | split; [reflexivity | intros _; eexists; split; reflexivity]].
      * cbn [fst snd trace printed attempted].
        split; [reflexivity | split; [reflexivity | discriminate]].
Qed.

Lemma handlers_on_missing_fields_witness :
  exists e,
    fst (handle_mptcp_server_mode
           (mkArgs "mptcp-server" PyNone PyNone PyNone PyNone PyNone "eth0") quiet init)
    = Raise e /\ cls e = TypeError.
Proof.
  destruct handlers_on_missing_fields as (_ & _ & H).
  destruct (H "mptcp-server" PyNone PyNone PyNone PyNone (PyStr "eth0") quiet init)
    as (_ & _ & Hr).
  apply Hr. reflexivity.
Defined.

Lemma run_and_check_keeps_lines (a : argv) (s : bool) (w : world) (st : state)
    (o : output) :
  In o (out st) -> In o (out (snd (run_and_check (map PyStr a) s w st))).
Proof.
  intros H. rewrite run_and_check_spec.
  destruct (w (trace st) a) as [p|e];
    [destruct (stderr p =? "") | destruct (issubclass (cls e) SubprocessError)];
    cbn [snd out printed attempted]; try (apply in_or_app; now left); exact H.
Qed.

(** X14.  The error text of a command is shown to the user as it was
    captured.  In the MPTCP modes a command that completes with error text
    leaves the line "Error executing <command>: <text>" on standard error,
    the command written with single spaces between its arguments; the add
    of [configure_interface] that completes with error text makes it
    return [False] after the line "Error configuring <iface>: <text>". *)
Theorem error_text_is_reported :
  (forall (args : Namespace) (w : world) (st : state) (p : CompletedProcess),
     w (trace st) subflow_argv = Completed p -> stderr p <> "" ->
     In (to_stderr ("Error executing ip mptcp limits set subflow 2: " ++ stderr p))
        (out (snd (handle_mptcp_client_mode args w st)))) /\
  (forall (m : string) (i1 b1 i2 b2 : value) (ip dev : string) (w : world)
          (st : state) (q : CompletedProcess),
     caught (w (trace st) subflow_argv) = true ->
     w (trace st ++ [subflow_argv])%list (endpoint_argv ip dev) = Completed q ->
     stderr q <> "" ->
     In (to_stderr
           ("Error executing " ++ String.concat " " (endpoint_argv ip dev) ++ ": " ++
            stderr q))
        (out (snd (handle_mptcp_server_mode (mkArgs m i1 b1 i2 b2 ip dev) w st)))) /\
  (forall (iface : string) (bandwidth : value) (w : world) (st : state)
          (q : CompletedProcess),
     let c := tc_argv "change" iface (format bandwidth) in
     let a := tc_argv "add" iface (format bandwidth) in
     verdict_of (w (trace st) c) = Handled ->
     w (trace st ++ [c])%list a = Completed q ->
     stderr q <> "" ->
     exists st',
       configure_interface iface bandwidth w st = (Ok false, st') /\
       out st' =
       (out st ++ [to_stderr ("Error configuring " ++ iface ++ ": " ++ stderr q)])%list).
Proof.
  split; [ | split ].
  - intros args w st p Hw Hp. apply String.eqb_neq in Hp.
    rewrite client_mode_spec. cbv zeta.
    rewrite run_and_check_spec. cbn [trace printed]. rewrite Hw, Hp.
    apply run_and_check_keeps_lines. cbn [out printed attempted].
    apply in_or_app. right. left. reflexivity.
  - intros m i1 b1 i2 b2 ip dev w st q Hc Hw Hq. apply String.eqb_neq in Hq.
    rewrite (server_mode_spec _ ip dev) by reflexivity. cbv zeta.
    rewrite run_and_check_spec. cbn [trace printed]. unfold caught in Hc.
    destruct (w (trace st) subflow_argv) as [p|e].
    + destruct (stderr p =? ""); rewrite run_and_check_spec;
        cbn [trace printed attempted]; rewrite Hw, Hq;
        cbn [snd out printed attempted]; apply in_or_app; right; left;
        reflexivity.
    + rewrite Hc. rewrite run_and_check_spec.
      cbn [trace printed attempted]. rewrite Hw, Hq.
      cbn [snd out printed attempted]. apply in_or_app. right. left.
      reflexivity.
  - intros iface bandwidth w st q c a Hc Hw Hq. apply String.eqb_neq in Hq.
    rewrite configure_interface_spec. cbv zeta. fold c.
    unfold fallback_outcome. fold a. cbn [trace attempted].
    rewrite Hw, Hq. unfold verdict_of in Hc.
    destruct (w (trace st) c) as [p|e].
    + destruct (stderr p =? ""); [discriminate | ].
      eexists. split; reflexivity.
    + destruct (issubclass (cls e) SubprocessError); [ | discriminate ].
      eexists. split; reflexivity.
Qed.

Lemma error_text_is_reported_witness :
  In (to_stderr
        "Error executing ip mptcp limits set subflow 2: RTNETLINK answers: Operation not permitted")
     (out (snd (handle_mptcp_client_mode client_args complaining init))) /\
  In (to_stderr
        "Error executing ip mptcp endpoint add 192.168.1.100 dev eth0 signal: RTNETLINK answers: Operation not permitted")
     (out (snd (handle_mptcp_server_mode server_args complaining init))) /\
  exists st',
    configure_interface "eth0" "100" complaining init = (Ok false, st') /\
    out st' =
    [to_stderr "Error configuring eth0: RTNETLINK answers: Operation not permitted"].
Proof.
  destruct error_text_is_reported as (H1 & H2 & H3).
  split; [ | split ].
  - apply (H1 client_args complaining init
             (mkCompleted 2 "" "RTNETLINK answers: Operation not permitted"));
      [reflexivity | discriminate].
  - apply (H2 "mptcp-server" PyNone PyNone PyNone PyNone "192.168.1.100" "eth0"
             complaining init
             (mkCompleted 2 "" "RTNETLINK answers: Operation not permitted"));
      [reflexivity | reflexivity | discriminate].
  - apply (H3 "eth0" (PyStr "100") complaining init
             (mkCompleted 2 "" "RTNETLINK answers: Operation not permitted"));
      [reflexivity | reflexivity | discriminate].
Defined.

(** ** The outcome and what the child wrote *)

Lemma handle_bandwidth_mode_twin (m i1 b1 i2 b2 : string) (sip sif : value)
    (w1 w2 : world) (st : state) :
  same_verdicts w1 w2 ->
  twin (handle_bandwidth_mode (mkArgs m i1 b1 i2 b2 sip sif) w1 st)
       (handle_bandwidth_mode (mkArgs m i1 b1 i2 b2 sip sif) w2 st).
Proof.
  intros Hv. rewrite !handle_bandwidth_mode_spec. cbn [iface1 bw1 iface2 bw2].
  destruct (configure_interface_twin i1 b1 w1 w2 st st Hv eq_refl) as [T S].
  destruct (configure_interface i1 b1 w1 st) as [[r1|e1|c1] st1],
    (configure_interface i1 b1 w2 st) as [[r1'|e1'|c1'] st1'];
    cbn [fst snd summary] in T, S; try discriminate; try (now split).
  inversion S. subst r1'.
  destruct (configure_interface_twin i2 b2 w1 w2 st1 st1' Hv T) as [T' S'].
  destruct (configure_interface i2 b2 w1 st1) as [[r2|e2|c2] st2],
    (configure_interface i2 b2 w2 st1') as [[r2'|e2'|c2'] st2'];
    cbn [fst snd summary] in T', S'; try discriminate; try (now split).
  inversion S'. now split.
Qed.

(** Worlds alike in what the children wrote give every invocation the same
    verdict once [subprocess.run] has decoded the output. *)
Lemma raw_alike_same_verdicts (decode : codec) (rw1 rw2 : raw_world) :
  (forall h a, raw_alike decode (rw1 h a) (rw2 h a)) ->
  same_verdicts (subprocess_world decode rw1) (subprocess_world decode rw2).
Proof.
  intros H h a. specialize (H h a).
  unfold subprocess_world, communicate, translate_newlines, raw_alike, decodes in *.
  destruct (rw1 h a) as [p1|e1], (rw2 h a) as [p2|e2]; try contradiction.
  - destruct H as [He Hd]. rewrite He.
    destruct (decode (raw_stdout p1)), (decode (raw_stdout p2));
      try discriminate; [ | reflexivity ].
    destruct (decode (raw_stderr p2)); reflexivity.
  - unfold verdict_of. now rewrite H.
Qed.

(** C10, as stated, fails.  With the [ascii] codec, two worlds whose
    invocations yield the same error output and the same launch-success
    flag end differently.  In the first pair every child starts and is
    silent on its error stream; the one that writes a byte that is not text
    on its standard output makes [subprocess.run] raise
    [UnicodeDecodeError], and the run ends with 1 where the other ends
    with 0.  In the second pair the first launch fails in both worlds and
    everything after it is silent; the failure that is a [SubprocessError]
    is handled and the run ends with 0, the one that is a
    [FileNotFoundError] escapes and the run ends with 1. *)
Lemma stdout_and_kind_of_launch_error_matter :
  ((forall h a, same_stderr_and_flag (tidy h a) (garbled h a)) /\
   fst (run_script client_args (subprocess_world ascii_strict tidy)) = 0 /\
   fst (run_script client_args (subprocess_world ascii_strict garbled)) = 1 /\
   succeeded (handle_mptcp_client_mode client_args
                (subprocess_world ascii_strict tidy) init) = true /\
   succeeded (handle_mptcp_client_mode client_args
                (subprocess_world ascii_strict garbled) init) = false) /\
  ((forall h a,
      same_stderr_and_flag (first_launch_unreadable h a) (first_launch_not_found h a)) /\
   fst (run_script bandwidth_args
          (subprocess_world ascii_strict first_launch_unreadable)) = 0 /\
   fst (run_script bandwidth_args
          (subprocess_world ascii_strict first_launch_not_found)) = 1).
Proof.
  split.
  - split; [intros h a; reflexivity | ].
    repeat split.
  - split; [intros [|c h] a; exact I || reflexivity | ].
    split; reflexivity.
Qed.

(** C10, amended.  The outcome depends on an invocation only through its
    error output, through whether its standard output is text at all, and
    through whether it started or failed to start with an error the
    handlers catch.  Two worlds alike in these for every invocation,
    however they differ otherwise in standard output and in exit status,
    give every handler the same boolean (or none in both) and the same
    commands, and give the script the same exit code. *)
Theorem outcome_blind_to_decodable_stdout (decode : codec) (args : Namespace)
    (rw1 rw2 : raw_world) :
  (forall h a, raw_alike decode (rw1 h a) (rw2 h a)) ->
  let w1 := subprocess_world decode rw1 in
  let w2 := subprocess_world decode rw2 in
  (forall (m i1 b1 i2 b2 : string) (sip sif : value) (st : state),
     twin (handle_bandwidth_mode (mkArgs m i1 b1 i2 b2 sip sif) w1 st)
          (handle_bandwidth_mode (mkArgs m i1 b1 i2 b2 sip sif) w2 st)) /\
  (forall st,
     twin (handle_mptcp_client_mode args w1 st) (handle_mptcp_client_mode args w2 st)) /\
  (forall (m : string) (i1 b1 i2 b2 : value) (ip dev : string) (st : state),
     twin (handle_mptcp_server_mode (mkArgs m i1 b1 i2 b2 ip dev) w1 st)
          (handle_mptcp_server_mode (mkArgs m i1 b1 i2 b2 ip dev) w2 st)) /\
  fst (run_script args w1) = fst (run_script args w2) /\
  trace (snd (run_script args w1)) = trace (snd (run_script args w2)).
Proof.
  intros H w1 w2.
  pose proof (raw_alike_same_verdicts decode rw1 rw2 H) as Hv.
  fold w1 in Hv. fold w2 in Hv.
  split; [ | split; [ | split ] ].
  - intros. now apply handle_bandwidth_mode_twin.
  - intros st. rewrite !client_mode_spec. cbv zeta.
    now apply mptcp_pair_twin.
  - intros m i1 b1 i2 b2 ip dev st.
    rewrite !(server_mode_spec _ ip dev) by reflexivity. cbv zeta.
    now apply mptcp_pair_twin.
  - destruct (rejects args) eqn:R.
    + destruct (run_script_rejected args w1 R) as [l1 ->].
      destruct (run_script_rejected args w2 R) as [l2 ->].
      now split.
    + unfold run_script. rewrite !(main_accepted args _ init R).
      destruct (dispatch_twin args w1 w2 R Hv) as [T S].
      pose proof (no_exit_dispatch args w1 init) as N1.
      pose proof (no_exit_dispatch args w2 init) as N2.
      destruct (dispatch args w1 init) as [[r1|e1|c1] st1],
        (dispatch args w2 init) as [[r2|e2|c2] st2];
        cbn [fst snd summary] in *; try contradiction; try discriminate.
      * inversion S. now split.
      * now split.
Qed.

Lemma outcome_blind_to_decodable_stdout_witness :
  (fst (run_script bandwidth_args (subprocess_world ascii_strict tidy)) =
   fst (run_script bandwidth_args (subprocess_world ascii_strict wordy)) /\
   trace (snd (run_script bandwidth_args (subprocess_world ascii_strict tidy))) =
   trace (snd (run_script bandwidth_args (subprocess_world ascii_strict wordy)))) /\
  (fst (run_script server_args (subprocess_world ascii_strict not_found)) =
   fst (run_script server_args (subprocess_world ascii_strict not_executable)) /\
   trace (snd (run_script server_args (subprocess_world ascii_strict not_found))) =
   trace (snd (run_script server_args (subprocess_world ascii_strict not_executable)))).
Proof.
  split.
  - apply (outcome_blind_to_decodable_stdout ascii_strict bandwidth_args tidy wordy).
    intros h a. split; reflexivity.
  - apply (outcome_blind_to_decodable_stdout ascii_strict server_args
             not_found not_executable).
    intros h a. reflexivity.
Defined.
